(** * createInstantSearchManager: a shallow embedding and its properties

    The development follows
    [packages/react-instantsearch/src/core/createInstantSearchManager.js].
    The closure variables of the manager ([helper], [derivedHelpers],
    [indexMapping], [initialSearchParameters], [skip], the store and the
    widget registry) become the fields of one record that every operation
    takes and returns. *)

From Stdlib Require Import List Bool Lia.
From stdpp Require Import gmap strings list fin_maps.
Import ListNotations.

Local Open Scope string_scope.
Local Open Scope list_scope.

(** ** External collaborators

    [SearchParameters] and the response objects come from the
    algoliasearch-helper library, widget state and metadata from the
    rendering layer.  The manager only reads the [index] field of
    parameters and responses and calls [setIndex]; everything else stays
    abstract.  [native_text] is the JavaScript engine's part: the string a
    built-in member of [Object.prototype] converts to, which differs between
    engines. *)
Class Collaborators := {
  SP : Type;                          (* SearchParameters *)
  sp_index : SP -> string;            (* parameters.index *)
  sp_setIndex : string -> SP -> SP;   (* parameters.setIndex(newIndex) *)
  Content : Type;                     (* SearchResults, the 'result' payload *)
  content_index : Content -> string;  (* content.index *)
  SearchState : Type;                 (* the [widgets] part of the store *)
  Meta : Type;                        (* a widget's metadata entry *)
  meta_id : Meta -> option string;    (* meta.id, [None] when undefined *)
  Err : Type;                         (* what an 'error' event carries *)
  Client : Type;                      (* the algolia client *)
  client_clearCache : Client -> Client;
  FacetHits : Type;                   (* content.facetHits *)
  native_text : string -> string;     (* String(Object.prototype[name]) *)
}.

(** ** JavaScript values used as conditions and keys *)

(** Truthiness of an optional string property: [undefined] and the empty
    string are falsy. *)
Definition truthy (o : option string) : bool :=
  match o with
  | Some s => negb (String.eqb s "")
  | None => false
  end.

(** [o === s] for an optional string property against a string. *)
Definition strictEq (o : option string) (s : string) : bool :=
  match o with
  | Some t => String.eqb t s
  | None => false
  end.

(** [obj[k]] with a possibly undefined [k]: the property key is the string
    the value converts to. *)
Definition jsKey (o : option string) : string :=
  match o with
  | Some s => s
  | None => "undefined"
  end.

(** *** Plain objects used as maps

    [indexMapping], [derivedHelpers] and a multi-index [results] are plain
    objects.  A [gmap] holds their own keys; what they inherit from
    [Object.prototype] is spelled out here. *)

(** [o[k] = v], as far as the own keys go.  Assigning to [__proto__] runs
    the inherited setter, which ignores a primitive and takes an object as
    the new prototype: no own key appears.  Any other name becomes an own
    key, also one that [Object.prototype] defines. *)
Definition setProperty {A : Type} (k : string) (v : A) (o : gmap string A)
  : gmap string A :=
  if String.eqb k "__proto__" then o else <[k := v]> o.

(** The members every plain object inherits from [Object.prototype],
    besides the accessor [__proto__]. *)
Definition objectPrototypeNames : list string :=
  ["constructor"; "hasOwnProperty"; "isPrototypeOf"; "propertyIsEnumerable";
   "toLocaleString"; "toString"; "valueOf";
   "__defineGetter__"; "__defineSetter__"; "__lookupGetter__"; "__lookupSetter__"].

Section Manager.
Context {C : Collaborators}.

(** What [String(o[k])] is when a plain object [o] with the default
    prototype has no own key [k]: [__proto__] reads the prototype, an
    object; the other inherited names read a built-in function; [None]
    stands for [undefined]. *)
Definition inheritedValue (k : string) : option string :=
  if String.eqb k "__proto__" then Some "[object Object]"
  else if existsb (String.eqb k) objectPrototypeNames then Some (native_text k)
  else None.

(** [String(indexMapping[index])], the key that line 169 writes to. *)
Definition mappedKey (im : gmap string string) (index : string) : string :=
  match im !! index with
  | Some logical => logical
  | None => jsKey (inheritedValue index)
  end.

(** ** Widgets *)

(** A widget as the manager sees it: three optional methods,
    [context.multiIndexContext] (reduced to its [targetedIndex]) and
    [props.indexName].  The methods are functions of their arguments. *)
Record Widget := {
  getSearchParametersOf : option (SP -> SP);
  getMetadataOf : option (SearchState -> Meta);
  transitionStateOf : option (SearchState -> SearchState -> SearchState);
  multiIndexContext : option string;
  props_indexName : option string;
}.

(** [Boolean(widget.getSearchParameters)] *)
Definition hasSearchParameters (w : Widget) : bool :=
  match getSearchParametersOf w with Some _ => true | None => false end.

(** [widget.getSearchParameters(res)]; only reached behind the
    [hasSearchParameters] filter. *)
Definition contribute (res : SP) (w : Widget) : SP :=
  match getSearchParametersOf w with
  | Some f => f res
  | None => res
  end.

(** Lines 78-80: the filter of the shared fold. *)
Definition isShared (indexName : string) (w : Widget) : bool :=
  match multiIndexContext w with
  | Some _ => false
  | None => strictEq (props_indexName w) indexName
            || negb (truthy (props_indexName w))
  end.

(** Lines 92-95: the filter of the derived widgets. *)
Definition isDerived (indexName : string) (w : Widget) : bool :=
  match multiIndexContext w with
  | Some t => negb (String.eqb t indexName)
  | None => false
  end
  || (truthy (props_indexName w)
      && negb (strictEq (props_indexName w) indexName)).

(** Lines 114-117: the filter of the main index fold. *)
Definition isMain (indexName : string) (w : Widget) : bool :=
  match multiIndexContext w with
  | Some t => String.eqb t indexName
  | None => false
  end
  || (truthy (props_indexName w) && strictEq (props_indexName w) indexName).

(** Lines 98-100: the index a derived widget targets.  Behind the derived
    filter a widget without context has a truthy [props.indexName]. *)
Definition targetOf (w : Widget) : string :=
  match multiIndexContext w with
  | Some t => t
  | None => jsKey (props_indexName w)
  end.

(** One entry of [derivatedWidgets]. *)
Record Group := {
  targetedIndex : string;
  widgets : list Widget;
}.

(** [index.widgets.push(widget)] on the entry [find] returned, which is the
    first one with that [targetedIndex]. *)
Fixpoint pushInto (t : string) (w : Widget) (indices : list Group) : list Group :=
  match indices with
  | [] => []
  | g :: rest =>
      if String.eqb (targetedIndex g) t
      then {| targetedIndex := targetedIndex g; widgets := widgets g ++ [w] |} :: rest
      else g :: pushInto t w rest
  end.

(** Lines 97-107: the reducer that groups derived widgets by target. *)
Definition groupStep (indices : list Group) (w : Widget) : list Group :=
  let t := targetOf w in
  match List.find (fun i => String.eqb (targetedIndex i) t) indices with
  | Some _ => pushInto t w indices
  | None => indices ++ [{| targetedIndex := t; widgets := [w] |}]
  end.

(** What [getSearchParameters] returns. *)
Record Composition := {
  sharedParameters : SP;
  mainIndexParameters : SP;
  derivatedWidgets : list Group;
}.

(** The three pipelines of [getSearchParameters], as functions of the
    registry content, the configured index name and the base parameters. *)
Definition contributing (ws : list Widget) : list Widget :=
  List.filter hasSearchParameters ws.

Definition sharedWidgets (indexName : string) (ws : list Widget) : list Widget :=
  List.filter (isShared indexName) (contributing ws).

Definition derivedWidgetsOf (indexName : string) (ws : list Widget) : list Widget :=
  List.filter (isDerived indexName) (contributing ws).

Definition mainWidgets (indexName : string) (ws : list Widget) : list Widget :=
  List.filter (isMain indexName) (contributing ws).

Definition compose (indexName : string) (base : SP) (ws : list Widget) : Composition :=
  let shared := fold_left contribute (sharedWidgets indexName ws) base in
  {| sharedParameters := shared;
     mainIndexParameters := fold_left contribute (mainWidgets indexName ws) shared;
     derivatedWidgets := fold_left groupStep (derivedWidgetsOf indexName ws) [] |}.

(** ** The store

    [results] is [null], a single response object, or a plain object from
    logical index names to responses.  The plain object has its own keys
    and, once [__proto__] was assigned, a response as its prototype. *)
Inductive Results :=
| RNull
| RMono (content : Content)
| RMulti (byIndex : gmap string Content) (prototype : option Content).

(** A value of [resultsFacetValues]: the hits stored under a facet name, or
    the string stored under the key [query]. *)
Inductive FacetEntry :=
| FacetHitsOf (hits : FacetHits)
| FacetQuery (query : string).

(** The state object held by the store.  [resultsFacetValues] is [None]
    while the object has no such key. *)
Record StoreState := {
  widgetsState : SearchState;
  metadata : list Meta;
  results : Results;
  error : option Err;
  searching : bool;
  searchingForFacetValues : bool;
  resultsFacetValues : option (gmap string FacetEntry);
}.

(** ** The helper

    A derived helper is the closure passed to [helper.derive] at lines
    141-148: it captures [index], the group's widgets and
    [sharedParameters].  [dh_id] stands for the object's identity, which
    [detach] relies on. *)
Record DerivedHelper := {
  dh_id : nat;
  dh_index : string;
  dh_widgets : list Widget;
  dh_shared : SP;
}.

(** The main helper: its client, its [state], the derived helpers attached
    to it in the order of the [derive] calls, and the next fresh identity. *)
Record Helper := {
  client : Client;
  state : SP;
  attached : list DerivedHelper;
  nextId : nat;
}.

(** What reaches the client: one batch per [helper.search()], made of the
    main query and one query per attached derived helper, or one
    facet-value query. *)
Inductive Request :=
| SearchRequest (main : SP) (derived : list SP)
| FacetRequest (params : SP) (facetName query : string).

(** ** The manager *)
Record Manager := {
  indexName : string;
  helper : Helper;
  derivedHelpers : gmap string DerivedHelper;
  indexMapping : gmap string string;
  initialSearchParameters : SP;
  registry : list Widget;              (* widgetsManager.getWidgets() *)
  store : StoreState;                  (* store.getState() *)
  skip : bool;
  sent : list Request;                 (* requests given to the client, oldest first *)
}.

Definition withHelper (h : Helper) (m : Manager) : Manager :=
  {| indexName := indexName m; helper := h; derivedHelpers := derivedHelpers m;
     indexMapping := indexMapping m;
     initialSearchParameters := initialSearchParameters m;
     registry := registry m; store := store m; skip := skip m; sent := sent m |}.

Definition withDerivedHelpers (d : gmap string DerivedHelper) (m : Manager) : Manager :=
  {| indexName := indexName m; helper := helper m; derivedHelpers := d;
     indexMapping := indexMapping m;
     initialSearchParameters := initialSearchParameters m;
     registry := registry m; store := store m; skip := skip m; sent := sent m |}.

Definition withIndexMapping (im : gmap string string) (m : Manager) : Manager :=
  {| indexName := indexName m; helper := helper m; derivedHelpers := derivedHelpers m;
     indexMapping := im;
     initialSearchParameters := initialSearchParameters m;
     registry := registry m; store := store m; skip := skip m; sent := sent m |}.

Definition withInitialSearchParameters (p : SP) (m : Manager) : Manager :=
  {| indexName := indexName m; helper := helper m; derivedHelpers := derivedHelpers m;
     indexMapping := indexMapping m;
     initialSearchParameters := p;
     registry := registry m; store := store m; skip := skip m; sent := sent m |}.

Definition withRegistry (ws : list Widget) (m : Manager) : Manager :=
  {| indexName := indexName m; helper := helper m; derivedHelpers := derivedHelpers m;
     indexMapping := indexMapping m;
     initialSearchParameters := initialSearchParameters m;
     registry := ws; store := store m; skip := skip m; sent := sent m |}.

(** Modelled from the spec: the state store ([createStore]), which the spec
    describes as a plain [getState]/[setState] container.  [store m] is
    [store.getState()] and [withStore s] is [store.setState(s)]. *)
Definition withStore (s : StoreState) (m : Manager) : Manager :=
  {| indexName := indexName m; helper := helper m; derivedHelpers := derivedHelpers m;
     indexMapping := indexMapping m;
     initialSearchParameters := initialSearchParameters m;
     registry := registry m; store := s; skip := skip m; sent := sent m |}.

Definition withSkip (b : bool) (m : Manager) : Manager :=
  {| indexName := indexName m; helper := helper m; derivedHelpers := derivedHelpers m;
     indexMapping := indexMapping m;
     initialSearchParameters := initialSearchParameters m;
     registry := registry m; store := store m; skip := b; sent := sent m |}.

Definition withSent (l : list Request) (m : Manager) : Manager :=
  {| indexName := indexName m; helper := helper m; derivedHelpers := derivedHelpers m;
     indexMapping := indexMapping m;
     initialSearchParameters := initialSearchParameters m;
     registry := registry m; store := store m; skip := skip m; sent := l |}.

(** *** Helper methods the manager calls *)

(** [helper.setState(parameters)] *)
Definition setState (p : SP) (h : Helper) : Helper :=
  {| client := client h; state := p; attached := attached h; nextId := nextId h |}.

(** [helper.setClient(client)] *)
Definition setClient (c : Client) (h : Helper) : Helper :=
  {| client := c; state := state h; attached := attached h; nextId := nextId h |}.

(** [helper.clearCache()] empties the cache of the client. *)
Definition helperClearCache (h : Helper) : Helper :=
  {| client := client_clearCache (client h); state := state h;
     attached := attached h; nextId := nextId h |}.

(** [derivedHelper.detach()] removes that object from the helper. *)
Definition detach (dh : DerivedHelper) (h : Helper) : Helper :=
  {| client := client h; state := state h;
     attached := List.filter (fun x => negb (Nat.eqb (dh_id x) (dh_id dh))) (attached h);
     nextId := nextId h |}.

(** [isEmpty(object)] of lodash, on an object used as a map: it looks for
    an own key. *)
Definition isEmpty {A : Type} (o : gmap string A) : bool :=
  match map_to_list o with
  | [] => true
  | _ :: _ => false
  end.

(** ** Operations of the manager *)

(** Line 51. *)
Definition skipSearch (m : Manager) : Manager := withSkip true m.

(** Lines 65-70. *)
Definition getMetadata (st : SearchState) (m : Manager) : list Meta :=
  omap (fun w => match getMetadataOf w with
                 | Some f => Some (f st)
                 | None => None
                 end) (registry m).

(** Lines 72-125.  The argument passed at line 133 is ignored; the fold
    starts from [initialSearchParameters].  Besides returning the
    composition, the function resets [indexMapping] and records the index of
    the shared parameters (lines 73 and 86). *)
Definition getSearchParameters (m : Manager) : Composition * Manager :=
  let c := compose (indexName m) (initialSearchParameters m) (registry m) in
  (c, withIndexMapping (setProperty (sp_index (sharedParameters c)) (indexName m) ∅) m).

(** Line 134: every derived helper of the previous cycle is detached. *)
Definition detachAll (m : Manager) : Helper :=
  foldr (fun kv h => detach kv.2 h) (helper m) (map_to_list (derivedHelpers m)).

(** Lines 139-152, one iteration: [helper.derive] attaches a new derived
    helper, which is stored under the group's index. *)
Definition deriveGroup (shared : SP) (m : Manager) (g : Group) : Manager :=
  let h := helper m in
  let dh := {| dh_id := nextId h; dh_index := targetedIndex g;
               dh_widgets := widgets g; dh_shared := shared |} in
  withDerivedHelpers (setProperty (targetedIndex g) dh (derivedHelpers m))
    (withHelper {| client := client h; state := state h;
                   attached := attached h ++ [dh]; nextId := S (nextId h) |} m).

(** Lines 141-148: the body of the function given to [derive].  It folds the
    group's widgets over the shared parameters and records the physical
    index in [indexMapping]. *)
Definition runDerived (acc : gmap string string * list SP) (dh : DerivedHelper)
  : gmap string string * list SP :=
  let parameters := fold_left contribute (dh_widgets dh) (dh_shared dh) in
  (setProperty (sp_index parameters) (dh_index dh) acc.1, acc.2 ++ [parameters]).

(** [helper.search()], first half: the helper takes its own state as the
    main query and asks each attached derived helper, in order, for its
    parameters. *)
Definition buildQueries (m : Manager) : Manager * Request :=
  let r := fold_left runDerived (attached (helper m)) (indexMapping m, []) in
  (withIndexMapping r.1 m, SearchRequest (state (helper m)) r.2).

(** [helper.search()], second half: the batch goes to the client. *)
Definition clientSearch (r : Request) (m : Manager) : Manager :=
  withSent (sent m ++ [r]) m.

(** Lines 129-156 up to the moment the batch is handed to the client. *)
Definition prepareSearch (m : Manager) : Manager * Request :=
  let (c, m1) := getSearchParameters m in
  let m2 := withDerivedHelpers ∅ (withHelper (detachAll m1) m1) in
  let m3 := withHelper (setState (sharedParameters c) (helper m2)) m2 in
  let m4 := fold_left (deriveGroup (sharedParameters c)) (derivatedWidgets c) m3 in
  let m5 := withHelper (setState (mainIndexParameters c) (helper m4)) m4 in
  buildQueries m5.

(** Lines 127-158. *)
Definition search (m : Manager) : Manager :=
  if skip m then m
  else let (m', r) := prepareSearch m in clientSearch r m'.

(** Lines 55-58. *)
Definition updateClient (c : Client) (m : Manager) : Manager :=
  search (withHelper (setClient c (helper m)) m).

(** Lines 60-63. *)
Definition clearCache (m : Manager) : Manager :=
  search (withHelper (helperClearCache (helper m)) m).

(** [results.getFacetByName]: a response object has the method; a plain
    object has it as an entry of that name, or through a response that
    became its prototype. *)
Definition hasGetFacetByName (r : Results) : bool :=
  match r with
  | RNull => false
  | RMono _ => true
  | RMulti o proto =>
      match o !! "getFacetByName", proto with
      | None, None => false
      | _, _ => true
      end
  end.

(** [results[key] = content] at line 169.  There [results] is a plain
    object: [null] and response objects were replaced by [{}] before.
    Under the key [__proto__] the response becomes the prototype of the
    object instead of an entry. *)
Definition assign (key : string) (content : Content) (r : Results) : Results :=
  match r with
  | RMulti o proto =>
      if String.eqb key "__proto__" then RMulti o (Some content)
      else RMulti (<[key := content]> o) proto
  | RMono c => RMono c
  | RNull => RNull
  end.

(** Lines 160-184. *)
Definition handleSearchSuccess (content : Content) (m : Manager) : Manager :=
  let st := store m in
  let results0 := match results st with RNull => RMulti ∅ None | r => r end in
  let results1 :=
    if negb (isEmpty (derivedHelpers m)) && hasGetFacetByName results0
    then RMulti ∅ None else results0 in
  let results2 :=
    if negb (isEmpty (derivedHelpers m))
    then assign (mappedKey (indexMapping m) (content_index content)) content results1
    else RMono content in
  withStore {| widgetsState := widgetsState st; metadata := metadata st;
               results := results2; error := None; searching := false;
               searchingForFacetValues := searchingForFacetValues st;
               resultsFacetValues := None |} m.

(** Lines 186-196. *)
Definition handleSearchError (e : Err) (m : Manager) : Manager :=
  let st := store m in
  withStore {| widgetsState := widgetsState st; metadata := metadata st;
               results := results st; error := Some e; searching := false;
               searchingForFacetValues := searchingForFacetValues st;
               resultsFacetValues := None |} m.

(** Lines 199-211. *)
Definition onWidgetsUpdate (m : Manager) : Manager :=
  let st := store m in
  search (withStore {| widgetsState := widgetsState st;
                       metadata := getMetadata (widgetsState st) m;
                       results := results st; error := error st; searching := true;
                       searchingForFacetValues := searchingForFacetValues st;
                       resultsFacetValues := resultsFacetValues st |} m).

(** Lines 213-222. *)
Definition transitionState (nextSearchState : SearchState) (m : Manager) : SearchState :=
  fold_left (fun res f => f (widgetsState (store m)) res)
            (omap transitionStateOf (registry m)) nextSearchState.

(** Lines 224-235. *)
Definition onExternalStateUpdate (nextSearchState : SearchState) (m : Manager) : Manager :=
  let st := store m in
  search (withStore {| widgetsState := nextSearchState;
                       metadata := getMetadata nextSearchState m;
                       results := results st; error := error st; searching := true;
                       searchingForFacetValues := searchingForFacetValues st;
                       resultsFacetValues := resultsFacetValues st |} m).

(** Lines 238-244: the synchronous part of [onSearchForFacetValues]. *)
Definition onSearchForFacetValues (facetName query : string) (m : Manager) : Manager :=
  let st := store m in
  withSent (sent m ++ [FacetRequest (state (helper m)) facetName query])
    (withStore {| widgetsState := widgetsState st; metadata := metadata st;
                  results := results st; error := error st; searching := searching st;
                  searchingForFacetValues := true;
                  resultsFacetValues := resultsFacetValues st |} m).

(** Lines 246-256: the fulfilment callback. *)
Definition facetValuesSuccess (facetName query : string) (hits : FacetHits) (m : Manager)
  : Manager :=
  let st := store m in
  let previous := default ∅ (resultsFacetValues st) in
  withStore {| widgetsState := widgetsState st; metadata := metadata st;
               results := results st; error := error st; searching := searching st;
               searchingForFacetValues := false;
               resultsFacetValues :=
                 Some (<["query" := FacetQuery query]>
                         (<[facetName := FacetHitsOf hits]> previous)) |} m.

(** Lines 257-263: the rejection callback. *)
Definition facetValuesError (e : Err) (m : Manager) : Manager :=
  let st := store m in
  withStore {| widgetsState := widgetsState st; metadata := metadata st;
               results := results st; error := Some e; searching := searching st;
               searchingForFacetValues := false;
               resultsFacetValues := resultsFacetValues st |} m.

(** Lines 276-279. *)
Definition updateIndex (newIndex : string) (m : Manager) : Manager :=
  search (withInitialSearchParameters
            (sp_setIndex newIndex (initialSearchParameters m)) m).

(** Lines 281-289. *)
Definition getWidgetsIds (m : Manager) : list string :=
  fold_left (fun res meta => match meta_id meta with
                             | Some i => res ++ [i]
                             | None => res
                             end) (metadata (store m)) [].

(** Lines 16-49.  [searchParameters] stands for the parameters object built
    from the caller's options and the highlight tags; [resultsState] is
    [RNull] when the option is absent. *)
Definition createInstantSearchManager (name : string) (initialState : SearchState)
    (algoliaClient : Client) (searchParameters : SP) (resultsState : Results) : Manager :=
  let baseSP := sp_setIndex name searchParameters in
  {| indexName := name;
     helper := {| client := algoliaClient; state := baseSP; attached := []; nextId := 0 |};
     derivedHelpers := ∅;
     indexMapping := ∅;
     initialSearchParameters := baseSP;
     registry := [];
     store := {| widgetsState := initialState; metadata := []; results := resultsState;
                 error := None; searching := false; searchingForFacetValues := false;
                 resultsFacetValues := None |};
     skip := false;
     sent := [] |}.

(** ** Everything that can happen to a manager

    The calls of the returned interface (lines 291-302), the callbacks the
    manager registered with the helper, with the facet-value promise and with
    the widget registry, and direct use of the exposed [store]. *)
Inductive Event :=
| GetWidgetsIds
| OnExternalStateUpdate (nextSearchState : SearchState)
| TransitionState (nextSearchState : SearchState)
| OnSearchForFacetValues (facetName query : string)
| UpdateClient (c : Client)
| UpdateIndex (newIndex : string)
| ClearCache
| SkipSearch
| StoreSetState (s : StoreState)
| RegistryChange (ws : list Widget)
| OnWidgetsUpdate
| SearchResult (content : Content)
| SearchError (e : Err)
| FacetValuesResult (facetName query : string) (hits : FacetHits)
| FacetValuesError (e : Err).

(** Modelled from the spec: the widget registry ([createWidgetsManager]),
    which the spec describes as the ordered list of registered widgets with
    a change callback.  [RegistryChange] replaces the list;
    [OnWidgetsUpdate] is the callback the manager passed at line 38. *)
Definition step (m : Manager) (e : Event) : Manager :=
  match e with
  | GetWidgetsIds => m
  | OnExternalStateUpdate s => onExternalStateUpdate s m
  | TransitionState _ => m
  | OnSearchForFacetValues f q => onSearchForFacetValues f q m
  | UpdateClient c => updateClient c m
  | UpdateIndex i => updateIndex i m
  | ClearCache => clearCache m
  | SkipSearch => skipSearch m
  | StoreSetState s => withStore s m
  | RegistryChange ws => withRegistry ws m
  | OnWidgetsUpdate => onWidgetsUpdate m
  | SearchResult c => handleSearchSuccess c m
  | SearchError e => handleSearchError e m
  | FacetValuesResult f q h => facetValuesSuccess f q h m
  | FacetValuesError e => facetValuesError e m
  end.

Definition run (m : Manager) (es : list Event) : Manager := fold_left step es m.

(** The batches of main searches among the requests sent. *)
Definition searchRequests (l : list Request) : list Request :=
  List.filter (fun r => match r with SearchRequest _ _ => true | FacetRequest _ _ _ => false end) l.

End Manager.

(** ** Notions used in the statements *)

Section SpecWords.
Context {C : Collaborators}.

(** The number of buckets (shared fold, main index fold, derived widgets)
    whose filter a widget passes. *)
Definition bucketCount (indexName : string) (w : Widget) : nat :=
  Nat.b2n (isShared indexName w) + Nat.b2n (isMain indexName w)
  + Nat.b2n (isDerived indexName w).

(** The spec's fold of the shared bucket: walk the widgets in registration
    order; a widget of the shared bucket turns the accumulator into the next
    accumulator, any other widget leaves it alone. *)
Fixpoint foldShared (indexName : string) (ws : list Widget) (acc : SP) : SP :=
  match ws with
  | [] => acc
  | w :: rest =>
      match getSearchParametersOf w with
      | Some f =>
          if isShared indexName w
          then foldShared indexName rest (f acc)
          else foldShared indexName rest acc
      | None => foldShared indexName rest acc
      end
  end.

(** The widgets stored for target [t] in a list of groups. *)
Definition groupWidgets (t : string) (gs : list Group) : list Widget :=
  match List.find (fun i => String.eqb (targetedIndex i) t) gs with
  | Some g => widgets g
  | None => []
  end.

(** The physical index a derived group queries: the index of its widgets
    folded over the shared parameters. *)
Definition physicalIndex (shared : SP) (g : Group) : string :=
  sp_index (fold_left contribute (widgets g) shared).

(** A plain-object [results]. *)
Definition isMultiShaped (r : Results) : bool :=
  match r with
  | RMulti _ _ => true
  | RMono _ | RNull => false
  end.

(** The derived helpers one cycle creates for its groups, with identities
    counted from [n]. *)
Fixpoint newDerived (shared : SP) (n : nat) (gs : list Group) : list DerivedHelper :=
  match gs with
  | [] => []
  | g :: rest =>
      {| dh_id := n; dh_index := targetedIndex g; dh_widgets := widgets g;
         dh_shared := shared |} :: newDerived shared (S n) rest
  end.

(** The index mapping a cycle commits: the entry of the shared parameters'
    index, then one entry per derived group, in group order. *)
Definition committedMapping (name : string) (shared : SP) (gs : list Group)
  : gmap string string :=
  fold_left (fun im g => setProperty (physicalIndex shared g) (targetedIndex g) im) gs
            (setProperty (sp_index shared) name ∅).

(** The entries of a prior [results] that a multi-index write keeps. *)
Definition retained (r : Results) : gmap string Content :=
  match r with
  | RMulti o _ => if hasGetFacetByName r then ∅ else o
  | RMono _ | RNull => ∅
  end.

(** Whether an event runs [search()]. *)
Definition callsSearch (e : Event) : bool :=
  match e with
  | OnExternalStateUpdate _ | UpdateClient _ | UpdateIndex _ | ClearCache
  | OnWidgetsUpdate => true
  | _ => false
  end.

(** No widget of the list targets the index [__proto__]. *)
Definition ordinaryTargets (ws : list Widget) : Prop :=
  forall w, In w ws -> targetOf w <> "__proto__".

(** An event that registers widgets registers none for [__proto__]. *)
Definition ordinaryEvent (e : Event) : Prop :=
  match e with
  | RegistryChange ws => ordinaryTargets ws
  | _ => True
  end.

(** States a manager can be in: from its creation, through any events. *)
Definition reachable (m : Manager) : Prop :=
  exists name initialState algoliaClient searchParameters resultsState es,
    m = run (createInstantSearchManager name initialState algoliaClient
               searchParameters resultsState) es.

(** Every attached derived helper is one the manager still holds in
    [derivedHelpers]. *)
Definition attachedAreHeld (m : Manager) : Prop :=
  forall x, In x (attached (helper m)) ->
    exists k dh, derivedHelpers m !! k = Some dh /\ dh_id dh = dh_id x.

(** Whether an event changes what the composer reads: the widget list or
    the base parameters. *)
Definition reconfigures (e : Event) : bool :=
  match e with
  | RegistryChange _ | UpdateIndex _ => true
  | _ => false
  end.

End SpecWords.

(** ** A concrete instance, for examples *)

Module Demo.

(** Parameters: the index, and the refinements applied so far, in order. *)
Record Params := { index : string; refinements : list string }.

(** A response: the index it answers for and a hit count. *)
Record Response := { answeredIndex : string; nbHits : nat }.

#[local] Instance collaborators : Collaborators := {|
  SP := Params;
  sp_index := index;
  sp_setIndex := fun i p => {| index := i; refinements := refinements p |};
  Content := Response;
  content_index := answeredIndex;
  SearchState := list string;
  Meta := string;
  meta_id := fun s => Some s;
  Err := string;
  Client := nat;
  client_clearCache := fun c => c;
  FacetHits := list string;
  native_text := fun name =>
    if String.eqb name "constructor" then "function Object() { [native code] }"
    else String.append "function " (String.append name "() { [native code] }");
|}.

Definition refine (r : string) (p : SP) : SP :=
  {| index := index p; refinements := refinements p ++ [r] |}.

Definition base : SP := {| index := "products"; refinements := [] |}.

(** A refinement widget outside any index context. *)
Definition brand : Widget :=
  {| getSearchParametersOf := Some (refine "brand:acme");
     getMetadataOf := None; transitionStateOf := None;
     multiIndexContext := None; props_indexName := None |}.

(** The widget of an index component naming the primary index: no context of
    its own, [props.indexName] set.  Its contribution leaves a mark each
    time it is applied. *)
Definition primaryIndexWidget : Widget :=
  {| getSearchParametersOf := Some (refine "index:products");
     getMetadataOf := None; transitionStateOf := None;
     multiIndexContext := None; props_indexName := Some "products" |}.

(** The widget of an index component naming another index. *)
Definition otherIndexWidget : Widget :=
  {| getSearchParametersOf := Some (sp_setIndex "articles");
     getMetadataOf := None; transitionStateOf := None;
     multiIndexContext := None; props_indexName := Some "articles" |}.

(** A sort widget below an index component for the primary index: it
    switches to a replica. *)
Definition sortInPrimary : Widget :=
  {| getSearchParametersOf := Some (sp_setIndex "products_price_asc");
     getMetadataOf := None; transitionStateOf := None;
     multiIndexContext := Some "products"; props_indexName := None |}.

(** A sort widget outside any index context. *)
Definition sort : Widget :=
  {| getSearchParametersOf := Some (sp_setIndex "products_price_asc");
     getMetadataOf := None; transitionStateOf := None;
     multiIndexContext := None; props_indexName := None |}.

(** A filter below an index component for [articles]; it leaves the index
    of the parameters alone. *)
Definition articlesFilter : Widget :=
  {| getSearchParametersOf := Some (refine "tag:news");
     getMetadataOf := None; transitionStateOf := None;
     multiIndexContext := Some "articles"; props_indexName := None |}.

(** A widget that only takes part in state transitions: it puts the current
    search state in front of the proposed one. *)
Definition keeper : Widget :=
  {| getSearchParametersOf := None; getMetadataOf := None;
     transitionStateOf := Some (fun current next => current ++ next);
     multiIndexContext := None; props_indexName := None |}.

(** A widget that only describes itself. *)
Definition describer : Widget :=
  {| getSearchParametersOf := None;
     getMetadataOf := Some (fun st => String.concat "," st);
     transitionStateOf := None;
     multiIndexContext := None; props_indexName := None |}.

(** A widget without any capability. *)
Definition inert : Widget :=
  {| getSearchParametersOf := None; getMetadataOf := None; transitionStateOf := None;
     multiIndexContext := None; props_indexName := None |}.

Definition fresh : Manager :=
  createInstantSearchManager "products" [] 0 base RNull.

(** A sort widget below the primary index, next to a derived index. *)
Definition sortedPrimary : Manager :=
  run fresh [RegistryChange [sortInPrimary; otherIndexWidget]].

(** The same sort widget outside any index component. *)
Definition sortedShared : Manager :=
  run fresh [RegistryChange [sort; otherIndexWidget]].

(** A manager whose only widget is a filter of the derived index. *)
Definition filteredArticles : Manager :=
  run fresh [RegistryChange [articlesFilter]].

Definition response (i : string) (n : nat) : Content :=
  {| answeredIndex := i; nbHits := n |}.

(** A manager with one derived index. *)
Definition withArticles : Manager :=
  run fresh [RegistryChange [brand; otherIndexWidget]].

(** A single-index response was reconciled before the derived index came. *)
Definition monoThenArticles : Manager :=
  run fresh [SearchResult (response "products" 5);
             RegistryChange [brand; otherIndexWidget]].

(** A manager with a describing and a transition widget, after an external
    state update. *)
Definition described : Manager :=
  run fresh [RegistryChange [describer; keeper]; OnExternalStateUpdate ["a"; "b"]].

(** A cycle without derived index that sorts by a replica, then a cycle
    with the derived index [articles] and no sorting. *)
Definition lateSingleIndex : Manager :=
  run fresh [RegistryChange [sort]; OnWidgetsUpdate;
             RegistryChange [otherIndexWidget]; OnWidgetsUpdate].

(** A cycle without any widget, then a cycle with the derived index. *)
Definition lateUnsorted : Manager :=
  run fresh [OnWidgetsUpdate; RegistryChange [otherIndexWidget]; OnWidgetsUpdate].


End Demo.

(** * Properties *)

(** ** The parameter composer *)

Section ComposerFacts.
Context {C : Collaborators}.

Lemma contributing_has w ws :
  In w (contributing ws) <-> In w ws /\ hasSearchParameters w = true.
Proof. unfold contributing. apply filter_In. Qed.

Lemma contribute_some w f res :
  getSearchParametersOf w = Some f -> contribute res w = f res.
Proof. intros E. unfold contribute. now rewrite E. Qed.

(** *** Grouping *)

Lemma find_key_some t (gs : list Group) g :
  List.find (fun i => String.eqb (targetedIndex i) t) gs = Some g ->
  In g gs /\ targetedIndex g = t.
Proof.
  intros E. apply find_some in E as [Hin Heq].
  split; [exact Hin | now apply String.eqb_eq].
Qed.

Lemma find_key_none t (gs : list Group) :
  List.find (fun i => String.eqb (targetedIndex i) t) gs = None <->
  ~ In t (map targetedIndex gs).
Proof.
  induction gs as [|g gs IH]; simpl.
  - tauto.
  - destruct (String.eqb (targetedIndex g) t) eqn:E.
    + apply String.eqb_eq in E. split; [discriminate | intros N; exfalso; auto].
    + apply String.eqb_neq in E. rewrite IH. tauto.
Qed.

Lemma keys_pushInto t w gs :
  In t (map targetedIndex gs) ->
  map targetedIndex (pushInto t w gs) = map targetedIndex gs.
Proof.
  induction gs as [|g gs IH]; simpl; [tauto|].
  intros Hin. destruct (String.eqb (targetedIndex g) t) eqn:E; simpl.
  - reflexivity.
  - apply String.eqb_neq in E. f_equal. apply IH. tauto.
Qed.

Lemma groupWidgets_pushInto t t' w gs :
  In t (map targetedIndex gs) ->
  groupWidgets t' (pushInto t w gs)
  = groupWidgets t' gs ++ (if String.eqb t t' then [w] else []).
Proof.
  unfold groupWidgets.
  induction gs as [|g gs IH]; simpl; [tauto|].
  intros Hin. destruct (String.eqb (targetedIndex g) t) eqn:E; simpl.
  - apply String.eqb_eq in E. rewrite E.
    destruct (String.eqb t t') eqn:E'; [reflexivity | now rewrite app_nil_r].
  - destruct (String.eqb (targetedIndex g) t') eqn:E'.
    + apply String.eqb_eq in E'. apply String.eqb_neq in E.
      assert (String.eqb t t' = false) as ->
        by (apply String.eqb_neq; congruence).
      now rewrite app_nil_r.
    + apply String.eqb_neq in E. apply IH. tauto.
Qed.

Lemma groupWidgets_snoc t' gs g :
  groupWidgets t' (gs ++ [g])
  = if existsb (fun i => String.eqb (targetedIndex i) t') gs
    then groupWidgets t' gs
    else if String.eqb (targetedIndex g) t' then widgets g else [].
Proof.
  unfold groupWidgets. induction gs as [|h gs IH]; simpl.
  - now destruct (String.eqb (targetedIndex g) t').
  - destruct (String.eqb (targetedIndex h) t'); simpl; [reflexivity | exact IH].
Qed.

Lemma existsb_key t (gs : list Group) :
  existsb (fun i => String.eqb (targetedIndex i) t) gs = true
  <-> In t (map targetedIndex gs).
Proof.
  rewrite existsb_exists, in_map_iff. split.
  - intros [g [Hin E]]. apply String.eqb_eq in E. eauto.
  - intros [g [E Hin]]. exists g. split; [exact Hin | now apply String.eqb_eq].
Qed.

(** One step of the grouping: the widget lands in the group of its target
    and nowhere else. *)
Lemma groupWidgets_groupStep t' gs w :
  groupWidgets t' (groupStep gs w)
  = groupWidgets t' gs ++ (if String.eqb (targetOf w) t' then [w] else []).
Proof.
  unfold groupStep.
  destruct (List.find _ gs) as [g|] eqn:E.
  - apply groupWidgets_pushInto. apply find_key_some in E as [Hin Hk].
    rewrite <- Hk. now apply in_map.
  - rewrite groupWidgets_snoc. simpl.
    destruct (existsb _ gs) eqn:Ex.
    + destruct (String.eqb (targetOf w) t') eqn:Et; [|now rewrite app_nil_r].
      apply String.eqb_eq in Et. subst t'.
      apply existsb_key in Ex. apply find_key_none in E. contradiction.
    + assert (groupWidgets t' gs = []) as ->.
      { unfold groupWidgets.
        destruct (List.find (fun i => String.eqb (targetedIndex i) t') gs)
          as [g|] eqn:F; [|reflexivity].
        apply find_key_some in F as [Hin Hk].
        assert (existsb (fun i => String.eqb (targetedIndex i) t') gs = true)
          by (apply existsb_key; rewrite <- Hk; now apply in_map).
        congruence. }
      reflexivity.
Qed.

Lemma keys_groupStep gs w :
  map targetedIndex (groupStep gs w)
  = map targetedIndex gs
    ++ (if existsb (fun i => String.eqb (targetedIndex i) (targetOf w)) gs
        then [] else [targetOf w]).
Proof.
  unfold groupStep.
  destruct (List.find _ gs) as [g|] eqn:E.
  - apply find_key_some in E as [Hin Hk].
    assert (In (targetOf w) (map targetedIndex gs)) as Hk'
      by (rewrite <- Hk; now apply in_map).
    rewrite keys_pushInto by exact Hk'.
    apply existsb_key in Hk'. rewrite Hk'. now rewrite app_nil_r.
  - apply find_key_none in E.
    destruct (existsb _ gs) eqn:Ex.
    + apply existsb_key in Ex. contradiction.
    + now rewrite map_app.
Qed.

Lemma groupWidgets_fold t' ds gs :
  groupWidgets t' (fold_left groupStep ds gs)
  = groupWidgets t' gs ++ List.filter (fun w => String.eqb (targetOf w) t') ds.
Proof.
  revert gs. induction ds as [|w ds IH]; intros gs; simpl.
  - now rewrite app_nil_r.
  - rewrite IH, groupWidgets_groupStep, <- app_assoc.
    now destruct (String.eqb (targetOf w) t').
Qed.

Lemma keys_fold_NoDup ds gs :
  NoDup (map targetedIndex gs) ->
  NoDup (map targetedIndex (fold_left groupStep ds gs)).
Proof.
  revert gs. induction ds as [|w ds IH]; intros gs Hnd; simpl; [exact Hnd|].
  apply IH. rewrite keys_groupStep.
  destruct (existsb _ gs) eqn:Ex.
  - now rewrite app_nil_r.
  - apply NoDup_app. split; [exact Hnd|]. split.
    + intros x Hx Hk. apply list_elem_of_In in Hx. apply list_elem_of_In in Hk.
      destruct Hk as [<-|[]]. apply existsb_key in Hx. congruence.
    + apply NoDup_singleton.
Qed.

Lemma keys_fold_In t ds gs :
  In t (map targetedIndex (fold_left groupStep ds gs))
  <-> In t (map targetedIndex gs) \/ In t (map targetOf ds).
Proof.
  revert gs. induction ds as [|w ds IH]; intros gs; simpl; [tauto|].
  rewrite IH, keys_groupStep, in_app_iff.
  destruct (existsb _ gs) eqn:Ex; simpl.
  - apply existsb_key in Ex. split; [tauto|].
    intros [H|[<-|H]]; tauto.
  - tauto.
Qed.

Lemma NoDup_keys_find (gs : list Group) g :
  NoDup (map targetedIndex gs) -> In g gs ->
  List.find (fun i => String.eqb (targetedIndex i) (targetedIndex g)) gs = Some g.
Proof.
  induction gs as [|h gs IH]; simpl; [tauto|].
  intros Hnd [->|Hin].
  - now rewrite String.eqb_refl.
  - apply NoDup_cons in Hnd as [Hnot Hnd].
    destruct (String.eqb (targetedIndex h) (targetedIndex g)) eqn:E.
    + apply String.eqb_eq in E. exfalso. apply Hnot. rewrite E.
      apply list_elem_of_In. now apply in_map.
    + now apply IH.
Qed.

(** The groups built from a list of derived widgets: distinct targets, and
    each group holds exactly the widgets of its target, in order. *)
Lemma groups_characterised ds :
  let gs := fold_left groupStep ds [] in
  NoDup (map targetedIndex gs)
  /\ (forall g, In g gs ->
        widgets g = List.filter (fun w => String.eqb (targetOf w) (targetedIndex g)) ds)
  /\ (forall w, In w ds -> exists g, In g gs /\ targetedIndex g = targetOf w).
Proof.
  intros gs.
  assert (NoDup (map targetedIndex gs)) as Hnd
    by (apply keys_fold_NoDup; simpl; constructor).
  split; [exact Hnd|]. split.
  - intros g Hg.
    pose proof (groupWidgets_fold (targetedIndex g) ds []) as E.
    fold gs in E. unfold groupWidgets in E at 1.
    rewrite (NoDup_keys_find gs g Hnd Hg) in E. exact E.
  - intros w Hw.
    assert (In (targetOf w) (map targetedIndex gs)) as Hk
      by (apply keys_fold_In; right; now apply in_map).
    apply in_map_iff in Hk as [g [Hk Hg]]. eauto.
Qed.

Lemma NoDup_keys_same (gs : list Group) g g' :
  NoDup (map targetedIndex gs) -> In g gs -> In g' gs ->
  targetedIndex g = targetedIndex g' -> g = g'.
Proof.
  intros Hnd Hg Hg' E.
  pose proof (NoDup_keys_find gs g Hnd Hg) as F.
  pose proof (NoDup_keys_find gs g' Hnd Hg') as F'.
  rewrite E in F. congruence.
Qed.

(** *** The three filters *)

Lemma shared_derived_exclusive name w :
  isShared name w && isDerived name w = false.
Proof.
  unfold isShared, isDerived.
  destruct (multiIndexContext w); simpl; [reflexivity|].
  destruct (strictEq (props_indexName w) name), (truthy (props_indexName w));
    reflexivity.
Qed.

Lemma some_bucket name w : 1 <= bucketCount name w.
Proof.
  unfold bucketCount, isShared, isDerived, isMain.
  destruct (multiIndexContext w) as [t|]; simpl.
  - destruct (String.eqb t name); simpl; lia.
  - destruct (strictEq (props_indexName w) name), (truthy (props_indexName w));
      simpl; lia.
Qed.

Lemma one_bucket_without_props name w :
  truthy (props_indexName w) = false -> bucketCount name w = 1.
Proof.
  intros E. unfold bucketCount, isShared, isDerived, isMain. rewrite E.
  destruct (multiIndexContext w) as [t|]; simpl.
  - destruct (String.eqb t name); reflexivity.
  - now rewrite orb_true_r.
Qed.

Lemma one_bucket_without_context name w :
  multiIndexContext w = None -> strictEq (props_indexName w) name = false ->
  bucketCount name w = 1.
Proof.
  intros E1 E2. unfold bucketCount, isShared, isDerived, isMain. rewrite E1, E2.
  simpl. destruct (truthy (props_indexName w)); reflexivity.
Qed.

Lemma two_buckets_for_primary_props name w :
  multiIndexContext w = None -> truthy (props_indexName w) = true ->
  strictEq (props_indexName w) name = true ->
  isShared name w = true /\ isMain name w = true /\ isDerived name w = false.
Proof.
  intros E1 E2 E3. unfold isShared, isDerived, isMain. rewrite E1, E2, E3.
  repeat split.
Qed.

(** C1, amended.  Every widget with a parameter contribution passes at least
    one of the three filters and never both the shared and the derived one.
    The filters decide which pipeline consumes the widget.  The derived
    groups have distinct targets and each holds exactly the derived widgets
    of its target, so a derived widget sits in one group only.  A widget passes exactly one filter when it has no truthy
    [props.indexName], or no index context and a [props.indexName] other
    than the primary index; with no context and [props.indexName] equal to
    the primary index it is in the shared fold and in the main index fold. *)
Theorem contributing_widget_buckets (name : string) (base : SP) (ws : list Widget) :
  NoDup (map targetedIndex (derivatedWidgets (compose name base ws)))
  /\ (forall g, In g (derivatedWidgets (compose name base ws)) ->
        widgets g = List.filter (fun w => String.eqb (targetOf w) (targetedIndex g))
                                (derivedWidgetsOf name ws))
  /\ (forall w, In w ws -> hasSearchParameters w = true ->
        (In w (sharedWidgets name ws) <-> isShared name w = true)
        /\ (In w (mainWidgets name ws) <-> isMain name w = true)
        /\ (In w (derivedWidgetsOf name ws) <-> isDerived name w = true)
        /\ 1 <= bucketCount name w
        /\ isShared name w && isDerived name w = false
        /\ (isDerived name w = true ->
            exists g, In g (derivatedWidgets (compose name base ws))
                      /\ targetedIndex g = targetOf w
                      /\ In w (widgets g)
                      /\ forall g', In g' (derivatedWidgets (compose name base ws)) ->
                                    In w (widgets g') -> g' = g)
        /\ (truthy (props_indexName w) = false -> bucketCount name w = 1)
        /\ (multiIndexContext w = None ->
            strictEq (props_indexName w) name = false -> bucketCount name w = 1)
        /\ (multiIndexContext w = None -> truthy (props_indexName w) = true ->
            strictEq (props_indexName w) name = true ->
            isShared name w = true /\ isMain name w = true
            /\ isDerived name w = false)).
Proof.
  simpl.
  destruct (groups_characterised (derivedWidgetsOf name ws)) as [Hnd [Hw Hex]].
  split; [exact Hnd|]. split; [exact Hw|].
  intros w Hin Hsp.
  assert (In w (contributing ws)) as Hc by (apply contributing_has; now split).
  assert (forall p, In w (List.filter p (contributing ws)) <-> p w = true) as Hmem
    by (intros p; rewrite filter_In; tauto).
  split; [apply Hmem|]. split; [apply Hmem|]. split; [apply Hmem|].
  split; [apply some_bucket|].
  split; [apply shared_derived_exclusive|].
  split.
  - intros Hd.
    assert (In w (derivedWidgetsOf name ws)) as Hwd by (now apply Hmem).
    destruct (Hex w Hwd) as [g [Hg Hk]].
    exists g. split; [exact Hg|]. split; [exact Hk|]. split.
    + rewrite (Hw g Hg). apply filter_In. split; [exact Hwd|].
      rewrite Hk. apply String.eqb_refl.
    + intros g' Hg' Hwg'.
      rewrite (Hw g' Hg') in Hwg'. apply filter_In in Hwg' as [_ E].
      apply String.eqb_eq in E.
      apply (NoDup_keys_same _ g' g Hnd Hg' Hg). congruence.
  - split; [apply one_bucket_without_props|].
    split; [apply one_bucket_without_context|].
    apply two_buckets_for_primary_props.
Qed.

(** *** The shared fold *)

Lemma shared_fold_is_foldShared name ws base :
  fold_left contribute (sharedWidgets name ws) base = foldShared name ws base.
Proof.
  unfold sharedWidgets, contributing.
  revert base. induction ws as [|w ws IH]; intros base; simpl; [reflexivity|].
  unfold hasSearchParameters at 1.
  destruct (getSearchParametersOf w) as [f|] eqn:E; simpl; [|apply IH].
  destruct (isShared name w); simpl; [|apply IH].
  rewrite (contribute_some w f base E). apply IH.
Qed.

Lemma foldShared_app name l1 l2 acc :
  foldShared name (l1 ++ l2) acc = foldShared name l2 (foldShared name l1 acc).
Proof.
  revert acc. induction l1 as [|w l1 IH]; intros acc; simpl; [reflexivity|].
  destruct (getSearchParametersOf w); [destruct (isShared name w)|]; apply IH.
Qed.

Lemma foldShared_keeps {A : Type} (field : SP -> A) name post acc :
  (forall w' f', In w' post -> isShared name w' = true ->
                 getSearchParametersOf w' = Some f' ->
                 forall p, field (f' p) = field p) ->
  field (foldShared name post acc) = field acc.
Proof.
  revert acc. induction post as [|w post IH]; intros acc Hkeep; simpl; [reflexivity|].
  assert (forall w' f', In w' post -> isShared name w' = true ->
                        getSearchParametersOf w' = Some f' ->
                        forall p, field (f' p) = field p) as Hkeep'
    by (intros w' f' Hin; apply Hkeep; now right).
  destruct (getSearchParametersOf w) as [f|] eqn:E; [|now apply IH].
  destruct (isShared name w) eqn:Es; [|now apply IH].
  rewrite IH by exact Hkeep'.
  apply (Hkeep w f); [now left | exact Es | exact E].
Qed.

(** C7.  The shared parameters are the base parameters passed through the
    contribution of each shared-bucket widget in registration order, each
    widget receiving the previous accumulator.  Hence a field written by a
    shared-bucket widget keeps that widget's value, whatever earlier widgets
    wrote, as long as no later shared-bucket widget changes it. *)
Theorem shared_parameters_left_fold (m : Manager) :
  sharedParameters (getSearchParameters m).1
  = foldShared (indexName m) (registry m) (initialSearchParameters m)
  /\ forall (A : Type) (field : SP -> A) (v : A) pre w f post,
       registry m = pre ++ w :: post ->
       getSearchParametersOf w = Some f ->
       isShared (indexName m) w = true ->
       (forall p, field (f p) = v) ->
       (forall w' f', In w' post -> isShared (indexName m) w' = true ->
                      getSearchParametersOf w' = Some f' ->
                      forall p, field (f' p) = field p) ->
       field (sharedParameters (getSearchParameters m).1) = v.
Proof.
  assert (sharedParameters (getSearchParameters m).1
          = foldShared (indexName m) (registry m) (initialSearchParameters m)) as Hfold
    by (simpl; apply shared_fold_is_foldShared).
  split; [exact Hfold|].
  intros A field v pre w f post Hreg Hf Hs Hset Hkeep.
  rewrite Hfold, Hreg, foldShared_app. simpl. rewrite Hf, Hs.
  rewrite (foldShared_keeps field _ post _ Hkeep). apply Hset.
Qed.

End ComposerFacts.

(** The index widget of the primary index is consumed twice: by the shared
    fold and by the main index fold. *)
Lemma primary_index_widget_in_two_buckets :
  hasSearchParameters Demo.primaryIndexWidget = true
  /\ bucketCount "products" Demo.primaryIndexWidget = 2
  /\ sharedWidgets "products" [Demo.primaryIndexWidget] = [Demo.primaryIndexWidget]
  /\ mainWidgets "products" [Demo.primaryIndexWidget] = [Demo.primaryIndexWidget]
  /\ Demo.refinements
       (sharedParameters (compose "products" Demo.base [Demo.primaryIndexWidget]))
     = ["index:products"]
  /\ Demo.refinements
       (mainIndexParameters (compose "products" Demo.base [Demo.primaryIndexWidget]))
     = ["index:products"; "index:products"].
Proof. repeat split. Qed.

Lemma contributing_widget_buckets_witness :
  bucketCount "products" Demo.brand = 1
  /\ exists g, In g (derivatedWidgets
                       (compose "products" Demo.base [Demo.brand; Demo.otherIndexWidget]))
               /\ targetedIndex g = "articles".
Proof.
  destruct (contributing_widget_buckets "products" Demo.base
              [Demo.brand; Demo.otherIndexWidget]) as [_ [_ H]].
  split.
  - destruct (H Demo.brand (or_introl eq_refl) eq_refl)
      as (_ & _ & _ & _ & _ & _ & H1 & _).
    apply H1. reflexivity.
  - destruct (H Demo.otherIndexWidget (or_intror (or_introl eq_refl)) eq_refl)
      as (_ & _ & _ & _ & _ & H3 & _).
    destruct (H3 eq_refl) as [g [Hg [Hk _]]]. exists g. split; [exact Hg | exact Hk].
Defined.

Lemma shared_parameters_left_fold_witness :
  sp_index
    (sharedParameters
       (getSearchParameters
          (withRegistry [Demo.primaryIndexWidget; Demo.sort; Demo.brand] Demo.fresh)).1)
  = "products_price_asc".
Proof.
  destruct (shared_parameters_left_fold
              (withRegistry [Demo.primaryIndexWidget; Demo.sort; Demo.brand] Demo.fresh))
    as [_ H].
  apply (H _ sp_index "products_price_asc" [Demo.primaryIndexWidget] Demo.sort
           (sp_setIndex "products_price_asc") [Demo.brand]).
  - reflexivity.
  - reflexivity.
  - reflexivity.
  - intros p. reflexivity.
  - intros w' f' [<-|[]] _ E p. injection E as <-. reflexivity.
Defined.

(** ** The search cycle *)

Section CycleFacts.
Context {C : Collaborators}.

Lemma isEmpty_true {A : Type} (o : gmap string A) : isEmpty o = true <-> o = ∅.
Proof.
  unfold isEmpty. rewrite <- map_to_list_empty_iff.
  destruct (map_to_list o); split; congruence.
Qed.

Lemma isEmpty_false {A : Type} (o : gmap string A) : isEmpty o = false <-> o <> ∅.
Proof.
  rewrite <- isEmpty_true. destruct (isEmpty o); split; congruence.
Qed.

(** *** Detaching the previous cycle *)

Lemma attached_detach_fold (l : list (string * DerivedHelper)) h x :
  In x (attached (foldr (fun kv h => detach kv.2 h) h l)) ->
  In x (attached h) /\ forall kv, In kv l -> dh_id x <> dh_id kv.2.
Proof.
  induction l as [|kv l IH]; simpl.
  - intros Hx. split; [exact Hx | intros ? []].
  - intros Hx. apply filter_In in Hx as [Hx Hne].
    destruct (IH Hx) as [Hin Hall]. split; [exact Hin|].
    intros kv' [<-|Hkv'].
    + apply negb_true_iff in Hne. now apply Nat.eqb_neq in Hne.
    + now apply Hall.
Qed.

Lemma detachAll_frame m :
  client (detachAll m) = client (helper m)
  /\ state (detachAll m) = state (helper m)
  /\ nextId (detachAll m) = nextId (helper m).
Proof.
  unfold detachAll. induction (map_to_list (derivedHelpers m)); simpl; tauto.
Qed.

Lemma detachAll_clears m :
  attachedAreHeld m -> attached (detachAll m) = [].
Proof.
  intros Held. destruct (attached (detachAll m)) as [|x rest] eqn:E; [reflexivity|].
  exfalso.
  assert (In x (attached (detachAll m))) as Hx by (rewrite E; now left).
  unfold detachAll in Hx. apply attached_detach_fold in Hx as [Hin Hall].
  destruct (Held x Hin) as [k [dh [Hk Hid]]].
  apply (Hall (k, dh)); [|simpl; congruence].
  apply list_elem_of_In. now apply elem_of_map_to_list.
Qed.

(** *** Creating the derived helpers of the cycle *)

Lemma deriveGroups_frame shared gs m :
  let m' := fold_left (deriveGroup shared) gs m in
  indexName m' = indexName m /\ indexMapping m' = indexMapping m
  /\ initialSearchParameters m' = initialSearchParameters m
  /\ registry m' = registry m /\ store m' = store m
  /\ skip m' = skip m /\ sent m' = sent m
  /\ client (helper m') = client (helper m)
  /\ state (helper m') = state (helper m).
Proof.
  revert m. induction gs as [|g gs IH]; intros m; simpl; [tauto|].
  specialize (IH (deriveGroup shared m g)). simpl in IH. exact IH.
Qed.

Lemma deriveGroups_attached shared gs m :
  attached (helper (fold_left (deriveGroup shared) gs m))
  = attached (helper m) ++ newDerived shared (nextId (helper m)) gs.
Proof.
  revert m. induction gs as [|g gs IH]; intros m; simpl.
  - now rewrite app_nil_r.
  - rewrite IH. simpl. now rewrite <- app_assoc.
Qed.

Lemma deriveGroups_derivedHelpers shared gs m :
  derivedHelpers (fold_left (deriveGroup shared) gs m)
  = fold_left (fun d dh => setProperty (dh_index dh) dh d)
              (newDerived shared (nextId (helper m)) gs) (derivedHelpers m).
Proof.
  revert m. induction gs as [|g gs IH]; intros m; simpl; [reflexivity|].
  now rewrite IH.
Qed.

Lemma newDerived_keys shared n gs :
  map dh_index (newDerived shared n gs) = map targetedIndex gs.
Proof.
  revert n. induction gs as [|g gs IH]; intros n; simpl; [reflexivity|].
  now rewrite IH.
Qed.

(** *** Assigning a list of properties to a plain object *)

Lemma setProperty_ne {B : Type} (k k' : string) (v : B) (o : gmap string B) :
  k <> k' -> setProperty k v o !! k' = o !! k'.
Proof.
  intros Hne. unfold setProperty.
  destruct (String.eqb k "__proto__"); [reflexivity | now apply lookup_insert_ne].
Qed.

Lemma setProperty_eq {B : Type} (k : string) (v : B) (o : gmap string B) :
  k <> "__proto__" -> setProperty k v o !! k = Some v.
Proof.
  intros Hne. unfold setProperty.
  apply String.eqb_neq in Hne. rewrite Hne. apply lookup_insert_eq.
Qed.

Lemma setProperty_proto {B : Type} (k : string) (v : B) (o : gmap string B) :
  setProperty k v o !! "__proto__" = o !! "__proto__".
Proof.
  unfold setProperty. destruct (String.eqb k "__proto__") eqn:E; [reflexivity|].
  apply String.eqb_neq in E. now apply lookup_insert_ne.
Qed.

Section SetAll.
Context {A B : Type} (key : A -> string) (val : A -> B).

Lemma setAll_other (l : list A) (o : gmap string B) k :
  ~ In k (map key l) ->
  fold_left (fun o a => setProperty (key a) (val a) o) l o !! k = o !! k.
Proof.
  revert o. induction l as [|a l IH]; intros o Hk; simpl; [reflexivity|].
  simpl in Hk. rewrite IH by tauto. apply setProperty_ne. tauto.
Qed.

Lemma setAll_proto (l : list A) (o : gmap string B) :
  fold_left (fun o a => setProperty (key a) (val a) o) l o !! "__proto__"
  = o !! "__proto__".
Proof.
  revert o. induction l as [|a l IH]; intros o; simpl; [reflexivity|].
  rewrite IH. apply setProperty_proto.
Qed.

Lemma setAll_own (l : list A) (o : gmap string B) a :
  NoDup (map key l) -> In a l -> key a <> "__proto__" ->
  fold_left (fun o a => setProperty (key a) (val a) o) l o !! key a = Some (val a).
Proof.
  revert o. induction l as [|b l IH]; intros o Hnd Ha Hne; simpl; [destruct Ha|].
  simpl in Hnd. apply NoDup_cons in Hnd as [Hb Hnd].
  destruct Ha as [->|Ha].
  - rewrite setAll_other; [now apply setProperty_eq|].
    intros Hin. apply Hb. now apply list_elem_of_In.
  - now apply IH.
Qed.

Lemma setAll_some (l : list A) (o : gmap string B) k :
  is_Some (o !! k) \/ (In k (map key l) /\ k <> "__proto__") ->
  is_Some (fold_left (fun o a => setProperty (key a) (val a) o) l o !! k).
Proof.
  revert o. induction l as [|a l IH]; intros o Hk; simpl.
  - destruct Hk as [Hk|[[] _]]. exact Hk.
  - apply IH. simpl in Hk.
    destruct (String.string_dec (key a) k) as [E|Hne].
    + destruct Hk as [Hk|[_ Hp]].
      * left. unfold setProperty. destruct (String.eqb (key a) "__proto__");
          [exact Hk|]. rewrite <- E, lookup_insert_eq. eauto.
      * left. rewrite <- E. rewrite setProperty_eq by congruence. eauto.
    + rewrite setProperty_ne by exact Hne. tauto.
Qed.

Lemma setAll_some_inv (l : list A) (o : gmap string B) k :
  is_Some (fold_left (fun o a => setProperty (key a) (val a) o) l o !! k) ->
  is_Some (o !! k) \/ (In k (map key l) /\ k <> "__proto__").
Proof.
  intros H.
  destruct (String.string_dec k "__proto__") as [->|Hp].
  - left. now rewrite setAll_proto in H.
  - destruct (in_dec String.string_dec k (map key l)) as [Hin|Hnot].
    + right. now split.
    + left. now rewrite setAll_other in H.
Qed.

End SetAll.

(** *** Asking the derived helpers for their parameters *)

Lemma runDerived_fold shared n gs im qs :
  fold_left runDerived (newDerived shared n gs) (im, qs)
  = (fold_left (fun im g => setProperty (physicalIndex shared g) (targetedIndex g) im)
               gs im,
     qs ++ map (fun g => fold_left contribute (widgets g) shared) gs).
Proof.
  revert n im qs. induction gs as [|g gs IH]; intros n im qs; simpl.
  - now rewrite app_nil_r.
  - unfold runDerived at 2. simpl. rewrite IH. now rewrite <- app_assoc.
Qed.

(** The state in which a cycle hands its batch to the client. *)
Lemma prepareSearch_held m :
  attachedAreHeld m ->
  let c := (getSearchParameters m).1 in
  let shared := sharedParameters c in
  let gs := derivatedWidgets c in
  let m' := (prepareSearch m).1 in
  (prepareSearch m).2
  = SearchRequest (mainIndexParameters c)
                  (map (fun g => fold_left contribute (widgets g) shared) gs)
  /\ indexMapping m' = committedMapping (indexName m) shared gs
  /\ attached (helper m') = newDerived shared (nextId (helper m)) gs
  /\ derivedHelpers m'
     = fold_left (fun d dh => setProperty (dh_index dh) dh d)
                 (newDerived shared (nextId (helper m)) gs) ∅
  /\ state (helper m') = mainIndexParameters c.
Proof.
  intros Held. unfold prepareSearch. simpl.
  set (shared := fold_left contribute (sharedWidgets _ _) _).
  set (gs := fold_left groupStep _ []).
  set (m1 := withIndexMapping _ m).
  set (m3 := withHelper _ (withDerivedHelpers ∅ _)).
  pose proof (deriveGroups_frame shared gs m3) as F. simpl in F.
  destruct F as (Fn & Fm & Fi & Fr & Fs & Fk & Ft & Fc & Fst).
  pose proof (deriveGroups_attached shared gs m3) as Fa.
  pose proof (deriveGroups_derivedHelpers shared gs m3) as Fd.
  assert (attached (helper m3) = []) as Ha.
  { unfold m3. simpl. apply (detachAll_clears m1). exact Held. }
  assert (nextId (helper m3) = nextId (helper m)) as Hn.
  { unfold m3. simpl. apply (detachAll_frame m1). }
  rewrite Ha, Hn in Fa. simpl in Fa. rewrite Hn in Fd.
  rewrite Fa, Fm, Fd. rewrite runDerived_fold. simpl.
  repeat split; reflexivity.
Qed.

(** Whatever is attached, the batch carries the main index parameters,
    which are also the state the helper is left with. *)
Lemma prepareSearch_main m :
  exists derived,
    (prepareSearch m).2
    = SearchRequest (mainIndexParameters (getSearchParameters m).1) derived
    /\ state (helper (prepareSearch m).1) = mainIndexParameters (getSearchParameters m).1.
Proof.
  unfold prepareSearch, buildQueries. simpl. eexists. split; reflexivity.
Qed.

(** The derived helpers a cycle leaves under their own keys. *)
Lemma prepareSearch_derivedHelpers m :
  exists n,
    derivedHelpers (prepareSearch m).1
    = fold_left (fun d dh => setProperty (dh_index dh) dh d)
                (newDerived (sharedParameters (getSearchParameters m).1) n
                            (derivatedWidgets (getSearchParameters m).1)) ∅.
Proof.
  unfold prepareSearch. simpl.
  set (shared := fold_left contribute (sharedWidgets _ _) _).
  set (gs := fold_left groupStep _ []).
  set (m3 := withHelper _ (withDerivedHelpers ∅ _)).
  exists (nextId (helper m3)).
  apply (deriveGroups_derivedHelpers shared gs m3).
Qed.

(** *** What a cycle leaves alone *)

Lemma search_skipped m : skip m = true -> search m = m.
Proof. intros E. unfold search. now rewrite E. Qed.

Lemma search_unskipped m :
  skip m = false -> search m = clientSearch (prepareSearch m).2 (prepareSearch m).1.
Proof. intros E. unfold search. rewrite E. now destruct (prepareSearch m). Qed.

Lemma prepareSearch_frame m :
  let m' := (prepareSearch m).1 in
  indexName m' = indexName m
  /\ initialSearchParameters m' = initialSearchParameters m
  /\ registry m' = registry m /\ store m' = store m
  /\ skip m' = skip m /\ sent m' = sent m.
Proof.
  unfold prepareSearch. simpl.
  set (shared := fold_left contribute (sharedWidgets _ _) _).
  set (gs := fold_left groupStep _ []).
  set (m3 := withHelper _ (withDerivedHelpers ∅ _)).
  pose proof (deriveGroups_frame shared gs m3) as F. simpl in F.
  destruct F as (?&?&?&?&?&?&?&?&?). repeat split; assumption.
Qed.

Lemma search_frame m :
  indexName (search m) = indexName m
  /\ initialSearchParameters (search m) = initialSearchParameters m
  /\ registry (search m) = registry m /\ store (search m) = store m
  /\ skip (search m) = skip m.
Proof.
  destruct (skip m) eqn:E.
  - rewrite search_skipped by exact E. repeat split; congruence.
  - rewrite search_unskipped by exact E. simpl.
    pose proof (prepareSearch_frame m) as F. simpl in F.
    destruct F as (?&?&?&?&?&?). repeat split; congruence.
Qed.

(** *** Attached derived helpers stay held while no widget targets
    [__proto__] *)

Lemma attachedAreHeld_same m m' :
  attached (helper m') = attached (helper m) ->
  derivedHelpers m' = derivedHelpers m ->
  attachedAreHeld m -> attachedAreHeld m'.
Proof. unfold attachedAreHeld. intros -> ->. auto. Qed.

Lemma groups_have_widget_targets name ws g :
  In g (fold_left groupStep (derivedWidgetsOf name ws) []) ->
  exists w, In w ws /\ targetOf w = targetedIndex g.
Proof.
  intros Hg.
  assert (In (targetedIndex g)
             (map targetedIndex (fold_left groupStep (derivedWidgetsOf name ws) [])))
    as Hk by (now apply in_map).
  apply keys_fold_In in Hk as [[]|Hk].
  apply in_map_iff in Hk as [w [Hk Hin]].
  exists w. split; [|exact Hk].
  unfold derivedWidgetsOf in Hin. apply filter_In in Hin as [Hin _].
  now apply contributing_has in Hin as [Hin _].
Qed.

Lemma search_held m :
  attachedAreHeld m ->
  (forall g, In g (derivatedWidgets (getSearchParameters m).1) ->
             targetedIndex g <> "__proto__") ->
  attachedAreHeld (search m).
Proof.
  intros Held Hord. destruct (skip m) eqn:E.
  - now rewrite search_skipped.
  - rewrite search_unskipped by exact E.
    destruct (prepareSearch_held m Held) as (_ & _ & Ha & Hd & _).
    intros x Hx.
    change (In x (attached (helper (prepareSearch m).1))) in Hx. rewrite Ha in Hx.
    exists (dh_index x), x. split; [|reflexivity].
    change (derivedHelpers (prepareSearch m).1 !! dh_index x = Some x).
    rewrite Hd.
    apply (setAll_own dh_index (fun dh => dh)); [| exact Hx |].
    + rewrite newDerived_keys.
      apply (groups_characterised (derivedWidgetsOf (indexName m) (registry m))).
    + assert (In (dh_index x)
                 (map targetedIndex (derivatedWidgets (getSearchParameters m).1))) as Hk
        by (rewrite <- (newDerived_keys (sharedParameters (getSearchParameters m).1)
                          (nextId (helper m))); now apply in_map).
      apply in_map_iff in Hk as [g [<- Hg]]. now apply Hord.
Qed.

Lemma search_held_ordinary m :
  attachedAreHeld m -> ordinaryTargets (registry m) -> attachedAreHeld (search m).
Proof.
  intros Held Hord. apply search_held; [exact Held|].
  intros g Hg. simpl in Hg.
  destruct (groups_have_widget_targets _ _ g Hg) as [w [Hw <-]]. now apply Hord.
Qed.

Lemma step_held m e :
  attachedAreHeld m -> ordinaryTargets (registry m) -> ordinaryEvent e ->
  attachedAreHeld (step m e) /\ ordinaryTargets (registry (step m e)).
Proof.
  intros Held Hord He.
  destruct e; simpl; try (split; [exact Held | exact Hord]);
    try (split; [exact Held | exact He]);
    unfold onExternalStateUpdate, updateClient, updateIndex, clearCache,
      onWidgetsUpdate;
    match goal with
    | |- attachedAreHeld (search ?x) /\ _ =>
        destruct (search_frame x) as (_ & _ & Hr & _); rewrite Hr;
        split; [apply search_held_ordinary | exact Hord];
        [apply (attachedAreHeld_same m x); [reflexivity | reflexivity | exact Held]
        | exact Hord]
    end.
Qed.

Lemma run_held es m :
  attachedAreHeld m -> ordinaryTargets (registry m) -> Forall ordinaryEvent es ->
  attachedAreHeld (run m es).
Proof.
  revert m. induction es as [|e es IH]; intros m Held Hord Hes; simpl; [exact Held|].
  apply Forall_cons in Hes as [He Hes].
  destruct (step_held m e Held Hord He) as [Held' Hord'].
  now apply IH.
Qed.

Lemma created_held name st cl sp rs es :
  Forall ordinaryEvent es ->
  attachedAreHeld (run (createInstantSearchManager name st cl sp rs) es).
Proof.
  intros Hes. apply run_held; [intros x [] | intros w [] | exact Hes].
Qed.

End CycleFacts.

(** C3, at the failing input.  Below an index component for the primary
    index a sort widget switches to a replica: the main query goes to the
    replica, the mapping holds the shared parameters' index and the derived
    index only, and the replica's response is stored under [undefined].  The
    same sort widget outside any index component is folded into the shared
    parameters and its replica is mapped to the configured index name. *)
Lemma sort_below_primary_index_is_not_mapped :
  sent (search Demo.sortedPrimary)
  = [SearchRequest (sp_setIndex "products_price_asc" Demo.base)
                   [sp_setIndex "articles" Demo.base]]
  /\ indexMapping (search Demo.sortedPrimary) !! "products_price_asc" = None
  /\ indexMapping (search Demo.sortedPrimary) !! "products" = Some "products"
  /\ indexMapping (search Demo.sortedPrimary) !! "articles" = Some "articles"
  /\ results (store (handleSearchSuccess (Demo.response "products_price_asc" 7)
                       (search Demo.sortedPrimary)))
     = RMulti {[ "undefined" := Demo.response "products_price_asc" 7 ]} None
  /\ indexMapping (search Demo.sortedShared) !! "products_price_asc" = Some "products"
  /\ results (store (handleSearchSuccess (Demo.response "products_price_asc" 7)
                       (search Demo.sortedShared)))
     = RMulti {[ "products" := Demo.response "products_price_asc" 7 ]} None.
Proof. repeat split; vm_compute; reflexivity. Qed.

(** ** The result reconciler and the error handlers *)

Section ReconcilerFacts.
Context {C : Collaborators}.

Lemma handleSearchSuccess_results c m :
  results (store (handleSearchSuccess c m))
  = if isEmpty (derivedHelpers m) then RMono c
    else assign (mappedKey (indexMapping m) (content_index c)) c
                (RMulti (retained (results (store m))) None).
Proof.
  unfold handleSearchSuccess. simpl.
  destruct (isEmpty (derivedHelpers m)); simpl; [reflexivity|].
  destruct (results (store m)) as [|c'|o proto]; simpl; try reflexivity.
  destruct (o !! "getFacetByName"), proto; reflexivity.
Qed.

Lemma assign_ordinary (k : string) (c : Content) (o : gmap string Content) :
  k <> "__proto__" -> assign k c (RMulti o None) = RMulti (<[k := c]> o) None.
Proof. intros Hk. simpl. apply String.eqb_neq in Hk. now rewrite Hk. Qed.

Lemma has_own_key {A : Type} (o : gmap string A) :
  isEmpty o = false <-> exists k, is_Some (o !! k).
Proof.
  rewrite isEmpty_false. split.
  - intros Hne. apply map_choose in Hne as (k & x & Hk). exists k. eauto.
  - intros [k [x Hk]] ->. now rewrite lookup_empty in Hk.
Qed.

Lemma derivedHelpers_after_search m :
  skip m = false ->
  (isEmpty (derivedHelpers (search m)) = false
   <-> exists g, In g (derivatedWidgets (getSearchParameters m).1)
                 /\ targetedIndex g <> "__proto__").
Proof.
  intros Hskip. rewrite search_unskipped by exact Hskip.
  change (derivedHelpers (clientSearch (prepareSearch m).2 (prepareSearch m).1))
    with (derivedHelpers (prepareSearch m).1).
  destruct (prepareSearch_derivedHelpers m) as [n ->].
  set (l := newDerived _ n _).
  assert (map dh_index l = map targetedIndex (derivatedWidgets (getSearchParameters m).1))
    as Hkeys by apply newDerived_keys.
  rewrite has_own_key. split.
  - intros [k Hk].
    apply (setAll_some_inv dh_index (fun dh => dh)) in Hk as [Hk|[Hin Hp]].
    + rewrite lookup_empty in Hk. now destruct Hk.
    + rewrite Hkeys in Hin. apply in_map_iff in Hin as [g [<- Hg]]. eauto.
  - intros [g [Hg Hp]]. exists (targetedIndex g).
    apply (setAll_some dh_index (fun dh => dh)). right. split; [|exact Hp].
    rewrite Hkeys. now apply in_map.
Qed.

Lemma step_without_cycle m e :
  callsSearch e = false ->
  derivedHelpers (step m e) = derivedHelpers m
  /\ indexMapping (step m e) = indexMapping m.
Proof. intros He. destruct e; try discriminate He; split; reflexivity. Qed.

Lemma run_without_cycle es m :
  forallb (fun e => negb (callsSearch e)) es = true ->
  derivedHelpers (run m es) = derivedHelpers m
  /\ indexMapping (run m es) = indexMapping m.
Proof.
  revert m. induction es as [|e es IH]; intros m Hes; simpl; [now split|].
  simpl in Hes. apply andb_true_iff in Hes as [He Hes].
  apply negb_true_iff in He.
  destruct (step_without_cycle m e He) as [E1 E2].
  destruct (IH (step m e) Hes) as [R1 R2]. split; congruence.
Qed.

(** C2, amended.  After a response is reconciled, [results] is a plain
    object keyed by index name exactly when [derivedHelpers] has an own key
    at that moment.  Without one the response itself becomes [results];
    with one, a prior single-response value is dropped and the object holds
    the new entry only.  The derived helpers are those of the cycle started
    last, whichever cycle the response answers: after a cycle and any
    events that start no other, the shape is that of a plain object exactly
    when the cycle had a derived group with a target other than
    [__proto__]. *)
Theorem results_shape_follows_derived_helpers (m : Manager) (c : Content) :
  isMultiShaped (results (store (handleSearchSuccess c m)))
  = negb (isEmpty (derivedHelpers m))
  /\ (isEmpty (derivedHelpers m) = true ->
      results (store (handleSearchSuccess c m)) = RMono c)
  /\ (isEmpty (derivedHelpers m) = false ->
      forall c', results (store m) = RMono c' ->
      mappedKey (indexMapping m) (content_index c) <> "__proto__" ->
      results (store (handleSearchSuccess c m))
      = RMulti {[ mappedKey (indexMapping m) (content_index c) := c ]} None)
  /\ (skip m = false ->
      forall es, forallb (fun e => negb (callsSearch e)) es = true ->
      (isMultiShaped (results (store (handleSearchSuccess c (run (search m) es))))
       = true
       <-> exists g, In g (derivatedWidgets (getSearchParameters m).1)
                     /\ targetedIndex g <> "__proto__")).
Proof.
  assert (forall m0,
    isMultiShaped (results (store (handleSearchSuccess c m0)))
    = negb (isEmpty (derivedHelpers m0))) as Hshape.
  { intros m0. rewrite handleSearchSuccess_results.
    destruct (isEmpty (derivedHelpers m0)); simpl; [reflexivity|].
    now destruct (String.eqb (mappedKey (indexMapping m0) (content_index c))
                             "__proto__"). }
  split; [apply Hshape|]. split; [|split].
  - intros E. now rewrite handleSearchSuccess_results, E.
  - intros E c' Hmono Hk.
    rewrite handleSearchSuccess_results, E, Hmono. simpl retained.
    rewrite assign_ordinary by exact Hk. now rewrite insert_empty.
  - intros Hskip es Hes. rewrite Hshape.
    destruct (run_without_cycle es (search m) Hes) as [-> _].
    rewrite <- (derivedHelpers_after_search m Hskip).
    destruct (isEmpty (derivedHelpers (search m))); simpl;
      split; congruence.
Qed.

Lemma inheritedValue_proto : inheritedValue "__proto__" = Some "[object Object]".
Proof. reflexivity. Qed.


(** C5.  The error handler of the main search stores the error, clears
    [searching] and keeps [results]. *)
Theorem search_error_keeps_results (e : Err) (m : Manager) :
  error (store (handleSearchError e m)) = Some e
  /\ searching (store (handleSearchError e m)) = false
  /\ results (store (handleSearchError e m)) = results (store m).
Proof. repeat split. Qed.

(** C8.  The rejection callback of a facet-value search keeps [results],
    [metadata] and [searching]; the store changes in [error] and
    [searchingForFacetValues] only, and nothing outside the store changes. *)
Theorem facet_error_is_isolated (e : Err) (m : Manager) :
  results (store (facetValuesError e m)) = results (store m)
  /\ metadata (store (facetValuesError e m)) = metadata (store m)
  /\ searching (store (facetValuesError e m)) = searching (store m)
  /\ widgetsState (store (facetValuesError e m)) = widgetsState (store m)
  /\ resultsFacetValues (store (facetValuesError e m)) = resultsFacetValues (store m)
  /\ error (store (facetValuesError e m)) = Some e
  /\ searchingForFacetValues (store (facetValuesError e m)) = false
  /\ facetValuesError e m = withStore (store (facetValuesError e m)) m.
Proof. repeat split. Qed.

(** C10.  Both completions of the main search drop [resultsFacetValues],
    also right after a facet-value search stored its hits. *)
Theorem main_search_completion_drops_facet_values
    (c : Content) (e : Err) (m : Manager) :
  resultsFacetValues (store (handleSearchSuccess c m)) = None
  /\ resultsFacetValues (store (handleSearchError e m)) = None
  /\ forall facetName query hits,
       resultsFacetValues (store (facetValuesSuccess facetName query hits m))
       = Some (<["query" := FacetQuery query]>
                 (<[facetName := FacetHitsOf hits]>
                    (default ∅ (resultsFacetValues (store m)))))
       /\ resultsFacetValues
            (store (handleSearchSuccess c (facetValuesSuccess facetName query hits m)))
          = None
       /\ resultsFacetValues
            (store (handleSearchError e (facetValuesSuccess facetName query hits m)))
          = None.
Proof. repeat split. Qed.

End ReconcilerFacts.

Lemma results_shape_follows_derived_helpers_witness :
  results (store (search Demo.monoThenArticles)) = RMono (Demo.response "products" 5)
  /\ results (store (handleSearchSuccess (Demo.response "articles" 3)
                       (search Demo.monoThenArticles)))
     = RMulti {[ "articles" := Demo.response "articles" 3 ]} None
  /\ isMultiShaped
       (results (store (handleSearchSuccess (Demo.response "products" 5)
                          (run (search Demo.monoThenArticles)
                               [SearchError (C := Demo.collaborators) "timeout"; RegistryChange []]))))
     = true.
Proof.
  split; [reflexivity|]. split.
  - destruct (results_shape_follows_derived_helpers (search Demo.monoThenArticles)
                (Demo.response "articles" 3)) as (_ & _ & H & _).
    rewrite (H ltac:(vm_compute; reflexivity) (Demo.response "products" 5) eq_refl
               ltac:(vm_compute; discriminate)).
    vm_compute. reflexivity.
  - destruct (results_shape_follows_derived_helpers Demo.monoThenArticles
                (Demo.response "products" 5)) as (_ & _ & _ & H).
    apply (H eq_refl [SearchError (C := Demo.collaborators) "timeout"; RegistryChange []] eq_refl).
    exists {| targetedIndex := "articles"; widgets := [Demo.otherIndexWidget] |}.
    split; [left; reflexivity | discriminate].
Defined.

(** A response of a cycle without derived group, reconciled after a cycle
    with a derived group has started, is stored in a plain object: the
    first cycle alone queried the replica and the primary index under no
    derived query, yet its response does not become [results]. *)
Lemma late_response_of_single_index_cycle_is_multi_shaped :
  derivatedWidgets (getSearchParameters (run Demo.fresh [RegistryChange [Demo.sort]])).1
  = []
  /\ sent Demo.lateSingleIndex
     = [SearchRequest (sp_setIndex "products_price_asc" Demo.base) [];
        SearchRequest Demo.base [sp_setIndex "articles" Demo.base]]
  /\ results (store (handleSearchSuccess (Demo.response "products_price_asc" 7)
                       Demo.lateSingleIndex))
     = RMulti {[ "undefined" := Demo.response "products_price_asc" 7 ]} None
  /\ derivatedWidgets (getSearchParameters Demo.fresh).1 = []
  /\ sent Demo.lateUnsorted
     = [SearchRequest Demo.base [];
        SearchRequest Demo.base [sp_setIndex "articles" Demo.base]]
  /\ results (store (run Demo.lateUnsorted [SearchResult (Demo.response "products" 5)]))
     = RMulti {[ "products" := Demo.response "products" 5 ]} None.
Proof. repeat split; vm_compute; reflexivity. Qed.



(** ** Skipping searches, and determinism of the composer *)

Section InterfaceFacts.
Context {C : Collaborators}.

Lemma searchRequests_facet l p f q :
  searchRequests (l ++ [FacetRequest p f q]) = searchRequests l.
Proof. unfold searchRequests. rewrite List.filter_app. simpl. apply app_nil_r. Qed.

(** While [skip] is set, no event unsets it, sends a main search or touches
    the helper state, the derived helpers or the index mapping. *)
Lemma step_skipped m e :
  skip m = true ->
  skip (step m e) = true
  /\ searchRequests (sent (step m e)) = searchRequests (sent m)
  /\ state (helper (step m e)) = state (helper m)
  /\ attached (helper (step m e)) = attached (helper m)
  /\ derivedHelpers (step m e) = derivedHelpers m
  /\ indexMapping (step m e) = indexMapping m.
Proof.
  intros Hskip.
  destruct e; simpl;
    try (unfold onExternalStateUpdate, updateClient, updateIndex, clearCache,
           onWidgetsUpdate; rewrite search_skipped by exact Hskip; simpl);
    try rewrite searchRequests_facet;
    repeat split; try exact Hskip.
Qed.

Lemma run_skipped es m :
  skip m = true ->
  skip (run m es) = true
  /\ searchRequests (sent (run m es)) = searchRequests (sent m)
  /\ state (helper (run m es)) = state (helper m)
  /\ attached (helper (run m es)) = attached (helper m)
  /\ derivedHelpers (run m es) = derivedHelpers m
  /\ indexMapping (run m es) = indexMapping m.
Proof.
  revert m. induction es as [|e es IH]; intros m Hskip; simpl.
  - repeat split; exact Hskip.
  - destruct (step_skipped m e Hskip) as (S1 & S2 & S3 & S4 & S5 & S6).
    destruct (IH (step m e) S1) as (R1 & R2 & R3 & R4 & R5 & R6).
    repeat split; congruence.
Qed.

(** C9.  Once [skipSearch] was called, whatever is done with the manager
    afterwards, [skip] stays set, [search] returns without doing anything,
    no main search reaches the client, and the helper state, the derived
    helpers and the index mapping stay as they were. *)
Theorem skip_is_permanent (m : Manager) (es : list Event) :
  skip (run (skipSearch m) es) = true
  /\ search (run (skipSearch m) es) = run (skipSearch m) es
  /\ searchRequests (sent (run (skipSearch m) es)) = searchRequests (sent m)
  /\ state (helper (run (skipSearch m) es)) = state (helper m)
  /\ attached (helper (run (skipSearch m) es)) = attached (helper m)
  /\ derivedHelpers (run (skipSearch m) es) = derivedHelpers m
  /\ indexMapping (run (skipSearch m) es) = indexMapping m.
Proof.
  destruct (run_skipped es (skipSearch m) eq_refl) as (R1 & R2 & R3 & R4 & R5 & R6).
  split; [exact R1|]. split; [now apply search_skipped|].
  repeat split; assumption.
Qed.

Lemma step_keeps_configuration m e :
  reconfigures e = false ->
  indexName (step m e) = indexName m
  /\ initialSearchParameters (step m e) = initialSearchParameters m
  /\ registry (step m e) = registry m.
Proof.
  intros He.
  destruct e; try discriminate He; simpl; try (repeat split; reflexivity).
  - destruct (search_frame
                (withStore {| widgetsState := nextSearchState;
                              metadata := getMetadata nextSearchState m;
                              results := results (store m); error := error (store m);
                              searching := true;
                              searchingForFacetValues := searchingForFacetValues (store m);
                              resultsFacetValues := resultsFacetValues (store m) |} m))
      as (?&?&?&_).
    repeat split; assumption.
  - destruct (search_frame (withHelper (setClient c (helper m)) m)) as (?&?&?&_).
    repeat split; assumption.
  - destruct (search_frame (withHelper (helperClearCache (helper m)) m)) as (?&?&?&_).
    repeat split; assumption.
  - destruct (search_frame
                (withStore {| widgetsState := widgetsState (store m);
                              metadata := getMetadata (widgetsState (store m)) m;
                              results := results (store m); error := error (store m);
                              searching := true;
                              searchingForFacetValues := searchingForFacetValues (store m);
                              resultsFacetValues := resultsFacetValues (store m) |} m))
      as (?&?&?&_).
    repeat split; assumption.
Qed.

(** C6.  What [getSearchParameters] returns, and the index mapping it
    leaves, depend on the configured index name, the base parameters and
    the registered widgets only.  Composing again right away, after a whole
    search cycle, or after any event that changes neither the widgets nor
    the base parameters gives the same shared parameters, main index
    parameters and derived groups. *)
Theorem composition_is_deterministic (m : Manager) :
  (forall m', indexName m' = indexName m ->
              initialSearchParameters m' = initialSearchParameters m ->
              registry m' = registry m ->
              (getSearchParameters m').1 = (getSearchParameters m).1
              /\ indexMapping (getSearchParameters m').2
                 = indexMapping (getSearchParameters m).2)
  /\ getSearchParameters (getSearchParameters m).2 = getSearchParameters m
  /\ (getSearchParameters (search m)).1 = (getSearchParameters m).1
  /\ (forall e, reconfigures e = false ->
                (getSearchParameters (step m e)).1 = (getSearchParameters m).1).
Proof.
  assert (forall m', indexName m' = indexName m ->
                     initialSearchParameters m' = initialSearchParameters m ->
                     registry m' = registry m ->
                     (getSearchParameters m').1 = (getSearchParameters m).1
                     /\ indexMapping (getSearchParameters m').2
                        = indexMapping (getSearchParameters m).2) as Hsame.
  { intros m' E1 E2 E3. unfold getSearchParameters. simpl.
    rewrite E1, E2, E3. split; reflexivity. }
  split; [exact Hsame|]. split; [reflexivity|]. split.
  - destruct (search_frame m) as (E1 & E2 & E3 & _).
    apply (Hsame (search m) E1 E2 E3).
  - intros e He. destruct (step_keeps_configuration m e He) as (E1 & E2 & E3).
    apply (Hsame (step m e) E1 E2 E3).
Qed.

End InterfaceFacts.

Lemma composition_is_deterministic_witness :
  (getSearchParameters (handleSearchSuccess (Demo.response "articles" 3)
                          (search Demo.withArticles))).1
  = (getSearchParameters Demo.withArticles).1.
Proof.
  destruct (composition_is_deterministic (search Demo.withArticles)) as (_ & _ & _ & H).
  destruct (composition_is_deterministic Demo.withArticles) as (_ & _ & H' & _).
  exact (eq_trans (H (SearchResult (Demo.response "articles" 3)) eq_refl) H').
Defined.

(** * Further properties of the manager *)

(** ** The composer beyond the buckets *)

Section ComposerMore.
Context {C : Collaborators}.

Lemma filter_all_false {A : Type} (p : A -> bool) (l : list A) :
  (forall x, In x l -> p x = false) -> List.filter p l = [].
Proof.
  induction l as [|x l IH]; intros H; simpl; [reflexivity|].
  rewrite (H x (or_introl eq_refl)). apply IH. intros y Hy. apply H. now right.
Qed.

Lemma concat_pushInto t w gs :
  In t (map targetedIndex gs) ->
  concat (map widgets (pushInto t w gs)) ≡ₚ w :: concat (map widgets gs).
Proof.
  induction gs as [|g gs IH]; simpl; [tauto|].
  intros Hin. destruct (String.eqb (targetedIndex g) t) eqn:E; simpl.
  - rewrite <- app_assoc. simpl. symmetry. apply Permutation_middle.
  - apply String.eqb_neq in E. rewrite IH by tauto.
    symmetry. apply Permutation_middle.
Qed.

Lemma concat_groupStep gs w :
  concat (map widgets (groupStep gs w)) ≡ₚ w :: concat (map widgets gs).
Proof.
  unfold groupStep.
  destruct (List.find _ gs) as [g|] eqn:E.
  - apply concat_pushInto. apply find_key_some in E as [Hin Hk].
    rewrite <- Hk. now apply in_map.
  - rewrite map_app, concat_app. simpl.
    symmetry. apply Permutation_cons_append.
Qed.

Lemma concat_groups_fold ds gs :
  concat (map widgets (fold_left groupStep ds gs)) ≡ₚ concat (map widgets gs) ++ ds.
Proof.
  revert gs. induction ds as [|w ds IH]; intros gs; simpl.
  - now rewrite app_nil_r.
  - rewrite IH, concat_groupStep. simpl. apply Permutation_middle.
Qed.

Lemma groups_not_longer (gs : list Group) :
  (forall g, In g gs -> widgets g <> []) ->
  length gs <= length (concat (map widgets gs)).
Proof.
  induction gs as [|g gs IH]; intros Hne; simpl; [lia|].
  rewrite length_app.
  assert (length gs <= length (concat (map widgets gs))) as Hrest
    by (apply IH; intros g' Hg'; apply Hne; now right).
  assert (widgets g <> []) as Hg by (apply Hne; now left).
  destruct (widgets g); [congruence | simpl; lia].
Qed.

(** X8.  The derived groups are a regrouping of the derived widgets: taken
    together they hold each derived widget as often as it is registered, no
    group is empty, and there are no more groups than derived widgets. *)
Theorem derived_groups_regroup_the_derived_widgets
    (name : string) (base : SP) (ws : list Widget) :
  concat (map widgets (derivatedWidgets (compose name base ws)))
    ≡ₚ derivedWidgetsOf name ws
  /\ (forall g, In g (derivatedWidgets (compose name base ws)) -> widgets g <> [])
  /\ length (derivatedWidgets (compose name base ws))
     <= length (derivedWidgetsOf name ws).
Proof.
  simpl. set (ds := derivedWidgetsOf name ws).
  pose proof (concat_groups_fold ds []) as Hperm. simpl in Hperm.
  assert (forall g, In g (fold_left groupStep ds []) -> widgets g <> []) as Hne.
  { intros g Hg Hnil.
    destruct (groups_characterised ds) as (_ & Hw & _).
    assert (In (targetedIndex g) (map targetedIndex (fold_left groupStep ds [])))
      as Hk by (now apply in_map).
    apply keys_fold_In in Hk as [[]|Hk].
    apply in_map_iff in Hk as [w [Hk Hin]].
    assert (In w (widgets g)) as Hwg.
    { rewrite (Hw g Hg). apply filter_In. split; [exact Hin|].
      now apply String.eqb_eq. }
    rewrite Hnil in Hwg. destruct Hwg. }
  split; [exact Hperm|]. split; [exact Hne|].
  rewrite <- (Permutation_length Hperm). now apply groups_not_longer.
Qed.

(** X9.  A widget without [getSearchParameters] is invisible to the
    composer, wherever it is registered. *)
Theorem widget_without_contribution_is_ignored
    (name : string) (base : SP) (before after : list Widget) (w : Widget) :
  hasSearchParameters w = false ->
  compose name base (before ++ w :: after) = compose name base (before ++ after).
Proof.
  intros Hw.
  assert (contributing (before ++ w :: after) = contributing (before ++ after)) as E.
  { unfold contributing. rewrite !List.filter_app. simpl. now rewrite Hw. }
  unfold compose, sharedWidgets, mainWidgets, derivedWidgetsOf. now rewrite E.
Qed.

(** X10.  Empty buckets: without a widget for the main index fold the main
    index parameters are the shared parameters, without a widget for the
    shared fold the shared parameters are the base parameters, and without
    a derived widget there is no group. *)
Theorem empty_buckets (name : string) (base : SP) (ws : list Widget) :
  ((forall w, In w ws -> hasSearchParameters w = true -> isMain name w = false) ->
   mainIndexParameters (compose name base ws) = sharedParameters (compose name base ws))
  /\ ((forall w, In w ws -> hasSearchParameters w = true -> isShared name w = false) ->
      sharedParameters (compose name base ws) = base)
  /\ ((forall w, In w ws -> hasSearchParameters w = true -> isDerived name w = false) ->
      derivatedWidgets (compose name base ws) = []).
Proof.
  assert (forall p, (forall w, In w ws -> hasSearchParameters w = true -> p w = false) ->
                    List.filter p (contributing ws) = []) as Hempty.
  { intros p H. apply filter_all_false. intros w Hw.
    apply contributing_has in Hw as [Hin Hsp]. now apply H. }
  simpl. unfold mainWidgets, sharedWidgets, derivedWidgetsOf.
  split; [|split]; intros H; rewrite (Hempty _ H); reflexivity.
Qed.

End ComposerMore.

Lemma widget_without_contribution_is_ignored_witness :
  compose "products" Demo.base [Demo.brand; Demo.inert; Demo.otherIndexWidget]
  = compose "products" Demo.base [Demo.brand; Demo.otherIndexWidget].
Proof.
  apply (widget_without_contribution_is_ignored "products" Demo.base
           [Demo.brand] [Demo.otherIndexWidget] Demo.inert).
  reflexivity.
Defined.

Lemma empty_buckets_witness :
  mainIndexParameters (compose "products" Demo.base [Demo.brand; Demo.otherIndexWidget])
  = sharedParameters (compose "products" Demo.base [Demo.brand; Demo.otherIndexWidget]).
Proof.
  destruct (empty_buckets "products" Demo.base [Demo.brand; Demo.otherIndexWidget])
    as (H & _).
  apply H. intros w [<-|[<-|[]]] _; reflexivity.
Defined.

Lemma derived_groups_regroup_the_derived_widgets_witness :
  {| targetedIndex := "articles"; widgets := [Demo.otherIndexWidget] |}.(widgets) <> [].
Proof.
  destruct (derived_groups_regroup_the_derived_widgets "products" Demo.base
              [Demo.brand; Demo.otherIndexWidget]) as (_ & H & _).
  apply H. left. reflexivity.
Defined.

(** ** The search cycle beyond the mapping *)

Section CycleMore.
Context {C : Collaborators}.

(** What one cycle does, for a manager whose attached helpers are held. *)
Lemma search_effect m :
  attachedAreHeld m -> skip m = false ->
  let c := (getSearchParameters m).1 in
  sent (search m)
  = sent m ++ [SearchRequest (mainIndexParameters c)
                 (map (fun g => fold_left contribute (widgets g) (sharedParameters c))
                      (derivatedWidgets c))]
  /\ indexMapping (search m)
     = committedMapping (indexName m) (sharedParameters c) (derivatedWidgets c)
  /\ attached (helper (search m))
     = newDerived (sharedParameters c) (nextId (helper m)) (derivatedWidgets c)
  /\ derivedHelpers (search m)
     = fold_left (fun d dh => setProperty (dh_index dh) dh d)
                 (newDerived (sharedParameters c) (nextId (helper m)) (derivatedWidgets c))
                 ∅
  /\ state (helper (search m)) = mainIndexParameters c.
Proof.
  intros Held Hskip c.
  destruct (prepareSearch_held m Held) as (Hr & Him & Ha & Hd & Hs).
  destruct (prepareSearch_frame m) as (_ & _ & _ & _ & _ & Hsent).
  rewrite search_unskipped by exact Hskip.
  split.
  { change (sent (prepareSearch m).1 ++ [(prepareSearch m).2]
            = sent m ++ [SearchRequest (mainIndexParameters c)
                           (map (fun g => fold_left contribute (widgets g)
                                            (sharedParameters c))
                                (derivatedWidgets c))]).
    rewrite Hr, Hsent. reflexivity. }
  split; [exact Him|]. split; [exact Ha|].
  split; [exact Hd | exact Hs].
Qed.

(** What one cycle does whatever is attached: one batch with the main
    index parameters, which stay the state of the helper. *)
Lemma search_main m :
  skip m = false ->
  exists derived,
    sent (search m)
    = sent m ++ [SearchRequest (mainIndexParameters (getSearchParameters m).1) derived]
    /\ state (helper (search m)) = mainIndexParameters (getSearchParameters m).1.
Proof.
  intros Hskip.
  destruct (prepareSearch_main m) as (derived & Hr & Hs).
  destruct (prepareSearch_frame m) as (_ & _ & _ & _ & _ & Hsent).
  exists derived. rewrite search_unskipped by exact Hskip. split; [|exact Hs].
  change (sent (prepareSearch m).1 ++ [(prepareSearch m).2]
          = sent m ++ [SearchRequest (mainIndexParameters (getSearchParameters m).1)
                         derived]).
  now rewrite Hr, Hsent.
Qed.

Lemma search_client m : client (helper (search m)) = client (helper m).
Proof.
  destruct (skip m) eqn:E.
  - now rewrite search_skipped.
  - rewrite search_unskipped by exact E.
    change (client (helper (prepareSearch m).1) = client (helper m)).
    unfold prepareSearch. simpl.
    set (shared := fold_left contribute (sharedWidgets _ _) _).
    set (gs := fold_left groupStep _ []).
    set (m3 := withHelper _ (withDerivedHelpers ∅ _)).
    destruct (deriveGroups_frame shared gs m3) as (_&_&_&_&_&_&_&Hc&_).
    rewrite Hc. unfold m3. simpl.
    apply (detachAll_frame (withIndexMapping (<[sp_index shared:=indexName m]> ∅) m)).
Qed.

Lemma search_sent m :
  sent (search m) = sent m \/ exists r, sent (search m) = sent m ++ [r].
Proof.
  destruct (skip m) eqn:E.
  - left. now rewrite search_skipped.
  - right. rewrite search_unskipped by exact E.
    destruct (prepareSearch_frame m) as (_ & _ & _ & _ & _ & Hsent).
    exists (prepareSearch m).2.
    change (sent (prepareSearch m).1 ++ [(prepareSearch m).2]
            = sent m ++ [(prepareSearch m).2]).
    now rewrite Hsent.
Qed.

(** X6.  A cycle rebuilds the index mapping.  When it starts with every
    attached derived helper held in [derivedHelpers] (as from creation on
    while no widget targets [__proto__]), the mapping afterwards has an own
    entry exactly for the index of the shared parameters and the physical
    indices of the cycle's derived groups, an index [__proto__] excepted:
    entries of earlier cycles are gone. *)
Theorem mapping_is_rebuilt_each_cycle (m : Manager) (k : string) :
  attachedAreHeld m -> skip m = false ->
  let c := (getSearchParameters m).1 in
  is_Some (indexMapping (search m) !! k)
  <-> k <> "__proto__"
      /\ (k = sp_index (sharedParameters c)
          \/ In k (map (physicalIndex (sharedParameters c)) (derivatedWidgets c))).
Proof.
  intros Held Hskip c.
  destruct (search_effect m Held Hskip) as (_ & Him & _).
  fold c in Him. rewrite Him. unfold committedMapping. split.
  - intros H.
    apply (setAll_some_inv (physicalIndex (sharedParameters c)) targetedIndex)
      in H as [H|[Hin Hp]]; [|now split; [|right]].
    destruct (String.string_dec k "__proto__") as [->|Hp].
    { rewrite setProperty_proto, lookup_empty in H. now destruct H. }
    split; [exact Hp|]. left.
    destruct (String.string_dec (sp_index (sharedParameters c)) k) as [E|Hne];
      [now symmetry|].
    rewrite setProperty_ne, lookup_empty in H by exact Hne. now destruct H.
  - intros [Hp [->|H]];
      apply (setAll_some (physicalIndex (sharedParameters c)) targetedIndex).
    + left. rewrite setProperty_eq by exact Hp. eauto.
    + right. now split.
Qed.

Lemma newDerived_of_group shared n gs g :
  In g gs ->
  exists dh, In dh (newDerived shared n gs)
             /\ dh_index dh = targetedIndex g /\ dh_widgets dh = widgets g
             /\ dh_shared dh = shared.
Proof.
  revert n. induction gs as [|h gs IH]; intros n Hg; [destruct Hg|].
  destruct Hg as [->|Hg]; simpl.
  - eexists. split; [now left|]. repeat split.
  - destruct (IH (S n) Hg) as (dh & Hin & H1 & H2 & H3).
    exists dh. split; [now right|]. repeat split; assumption.
Qed.

(** X7.  A cycle replaces the derived helpers.  When it starts with every
    attached derived helper held in [derivedHelpers], afterwards one
    derived helper per derived group is attached, in group order, and none
    of an earlier cycle; the own keys of [derivedHelpers] are the groups'
    target indices other than [__proto__], and the helper stored for such a
    group carries that group's widgets and the cycle's shared parameters.
    If no group targets [__proto__], every attached helper is held again. *)
Theorem derived_helpers_are_renewed (m : Manager) :
  attachedAreHeld m -> skip m = false ->
  let c := (getSearchParameters m).1 in
  attached (helper (search m))
  = newDerived (sharedParameters c) (nextId (helper m)) (derivatedWidgets c)
  /\ length (attached (helper (search m))) = length (derivatedWidgets c)
  /\ (forall k, is_Some (derivedHelpers (search m) !! k)
                <-> k <> "__proto__" /\ In k (map targetedIndex (derivatedWidgets c)))
  /\ (forall g, In g (derivatedWidgets c) -> targetedIndex g <> "__proto__" ->
        exists dh, derivedHelpers (search m) !! targetedIndex g = Some dh
                   /\ In dh (attached (helper (search m)))
                   /\ dh_index dh = targetedIndex g
                   /\ dh_widgets dh = widgets g
                   /\ dh_shared dh = sharedParameters c)
  /\ ((forall g, In g (derivatedWidgets c) -> targetedIndex g <> "__proto__") ->
      attachedAreHeld (search m)).
Proof.
  intros Held Hskip c.
  destruct (search_effect m Held Hskip) as (_ & _ & Ha & Hd & _).
  fold c in Ha, Hd.
  set (l := newDerived (sharedParameters c) (nextId (helper m)) (derivatedWidgets c))
    in *.
  assert (map dh_index l = map targetedIndex (derivatedWidgets c)) as Hkeys
    by apply newDerived_keys.
  assert (NoDup (map dh_index l)) as Hnd.
  { rewrite Hkeys.
    apply (groups_characterised (derivedWidgetsOf (indexName m) (registry m))). }
  split; [exact Ha|]. split.
  { rewrite Ha. rewrite <- (length_map dh_index l), Hkeys. apply length_map. }
  split; [|split].
  - intros k. rewrite Hd, <- Hkeys. split.
    + intros H. apply (setAll_some_inv dh_index (fun dh => dh)) in H as [H|[H1 H2]].
      * rewrite lookup_empty in H. now destruct H.
      * now split.
    + intros [Hp Hin]. apply (setAll_some dh_index (fun dh => dh)). now right.
  - intros g Hg Hp.
    destruct (newDerived_of_group (sharedParameters c) (nextId (helper m))
                (derivatedWidgets c) g Hg) as (dh & Hin & H1 & H2 & H3).
    exists dh. rewrite Hd, Ha, <- H1.
    split; [|repeat split; assumption].
    apply (setAll_own dh_index (fun dh => dh)); [exact Hnd | exact Hin | congruence].
  - intros Hord. now apply search_held.
Qed.

(** X16.  With no contributing widget a cycle that starts with every
    attached derived helper held sends the base parameters as the only
    query and leaves no derived helper; the index mapping then holds the
    single entry from the base parameters' index to the configured index
    name, or nothing when that index is [__proto__]. *)
Theorem cycle_without_contributions (m : Manager) :
  attachedAreHeld m -> skip m = false ->
  (forall w, In w (registry m) -> hasSearchParameters w = false) ->
  sent (search m) = sent m ++ [SearchRequest (initialSearchParameters m) []]
  /\ indexMapping (search m)
     = setProperty (sp_index (initialSearchParameters m)) (indexName m) ∅
  /\ (sp_index (initialSearchParameters m) <> "__proto__" ->
      indexMapping (search m)
      = {[ sp_index (initialSearchParameters m) := indexName m ]})
  /\ (sp_index (initialSearchParameters m) = "__proto__" ->
      indexMapping (search m) = ∅)
  /\ derivedHelpers (search m) = ∅
  /\ attached (helper (search m)) = [].
Proof.
  intros Held Hskip Hnone.
  destruct (search_effect m Held Hskip) as (Hsent & Him & Ha & Hd & _).
  assert (contributing (registry m) = []) as E by (now apply filter_all_false).
  simpl in Hsent, Him, Ha, Hd.
  unfold sharedWidgets, mainWidgets, derivedWidgetsOf in *.
  rewrite E in *. simpl in *. unfold committedMapping in Him. simpl in Him.
  split; [exact Hsent|]. split; [exact Him|].
  split; [|split; [|split; assumption]].
  - intros Hp. rewrite Him. unfold setProperty.
    apply String.eqb_neq in Hp. rewrite Hp. apply insert_empty.
  - intros Hp. rewrite Him, Hp. reflexivity.
Qed.

(** X14.  Requests are only ever added: an event appends at most one
    request to those already sent, so after any events the earlier requests
    are still there, in order, followed by at most one request per event. *)
Theorem requests_are_append_only (m : Manager) (es : list Event) :
  exists l, sent (run m es) = sent m ++ l /\ length l <= length es.
Proof.
  revert m. induction es as [|e es IH]; intros m; simpl.
  - exists []. split; [now rewrite app_nil_r | simpl; lia].
  - assert (sent (step m e) = sent m \/ exists r, sent (step m e) = sent m ++ [r]) as Hs.
    { destruct e; simpl; try (now left);
        try (unfold onExternalStateUpdate, updateClient, updateIndex, clearCache,
               onWidgetsUpdate;
             match goal with |- context [search ?x] => apply (search_sent x) end).
      right. eexists. reflexivity. }
    destruct (IH (step m e)) as (l & Hl & Hlen).
    destruct Hs as [Hs|[r Hs]]; rewrite Hl, Hs.
    + exists l. split; [reflexivity | simpl; lia].
    + exists (r :: l). split; [now rewrite <- app_assoc | simpl; lia].
Qed.

(** X15.  [updateIndex] changes the index of the base parameters the
    composer starts from, and nothing else of the configuration: the index
    name used by the filters and by the mapping stays the configured one.
    The next batch is composed from the new base. *)
Theorem updateIndex_rebases_composition (newIndex : string) (m : Manager) :
  initialSearchParameters (updateIndex newIndex m)
  = sp_setIndex newIndex (initialSearchParameters m)
  /\ indexName (updateIndex newIndex m) = indexName m
  /\ registry (updateIndex newIndex m) = registry m
  /\ store (updateIndex newIndex m) = store m
  /\ (getSearchParameters (updateIndex newIndex m)).1
     = compose (indexName m) (sp_setIndex newIndex (initialSearchParameters m))
               (registry m)
  /\ (reachable m -> skip m = false ->
      exists derived,
        sent (updateIndex newIndex m)
        = sent m ++ [SearchRequest
                       (mainIndexParameters
                          (compose (indexName m)
                             (sp_setIndex newIndex (initialSearchParameters m))
                             (registry m)))
                       derived]).
Proof.
  unfold updateIndex.
  set (m1 := withInitialSearchParameters _ m).
  destruct (search_frame m1) as (E1 & E2 & E3 & E4 & _).
  split; [exact E2|]. split; [exact E1|]. split; [exact E3|]. split; [exact E4|].
  split.
  - unfold getSearchParameters. simpl. now rewrite E1, E2, E3.
  - intros _ Hskip.
    destruct (search_main m1 Hskip) as (derived & Hsent & _).
    exists derived. exact Hsent.
Qed.

(** X17.  [updateClient] installs the given client and [clearCache] clears
    the cache of the current one, whether or not searches are skipped;
    neither touches the store or the configuration, and the cycle they
    trigger keeps the client. *)
Theorem client_operations (c : Client) (m : Manager) :
  client (helper (updateClient c m)) = c
  /\ client (helper (clearCache m)) = client_clearCache (client (helper m))
  /\ store (updateClient c m) = store m
  /\ store (clearCache m) = store m
  /\ (getSearchParameters (updateClient c m)).1 = (getSearchParameters m).1
  /\ (getSearchParameters (clearCache m)).1 = (getSearchParameters m).1.
Proof.
  unfold updateClient, clearCache.
  set (m1 := withHelper (setClient c (helper m)) m).
  set (m2 := withHelper (helperClearCache (helper m)) m).
  destruct (search_frame m1) as (A1 & A2 & A3 & A4 & _).
  destruct (search_frame m2) as (B1 & B2 & B3 & B4 & _).
  split; [now rewrite search_client|]. split; [now rewrite search_client|].
  split; [exact A4|]. split; [exact B4|].
  unfold getSearchParameters. simpl.
  rewrite A1, A2, A3, B1, B2, B3. split; reflexivity.
Qed.

(** X5.  A facet-value search is sent with the helper's current state,
    which after any cycle, whoever calls [search], is the cycle's main index
    parameters; it goes out also while searches are skipped, raises only
    [searchingForFacetValues], and either completion lowers that flag
    again. *)
Theorem facet_search_uses_main_parameters (facetName query : string) (m : Manager) :
  (skip m = false ->
   exists batch,
     sent (onSearchForFacetValues facetName query (search m))
     = sent m ++ [batch;
                  FacetRequest (mainIndexParameters (getSearchParameters m).1)
                               facetName query])
  /\ sent (onSearchForFacetValues facetName query (skipSearch m))
     = sent m ++ [FacetRequest (state (helper m)) facetName query]
  /\ searchingForFacetValues (store (onSearchForFacetValues facetName query m)) = true
  /\ searching (store (onSearchForFacetValues facetName query m)) = searching (store m)
  /\ results (store (onSearchForFacetValues facetName query m)) = results (store m)
  /\ (forall hits,
        searchingForFacetValues
          (store (facetValuesSuccess facetName query hits
                    (onSearchForFacetValues facetName query m))) = false)
  /\ (forall e,
        searchingForFacetValues
          (store (facetValuesError e (onSearchForFacetValues facetName query m)))
        = false).
Proof.
  split; [|repeat split].
  intros Hskip.
  destruct (search_main m Hskip) as (derived & Hsent & Hs).
  eexists. unfold onSearchForFacetValues. simpl.
  rewrite Hsent, Hs, <- app_assoc. reflexivity.
Qed.

End CycleMore.

(** ** The store: reconciliation, metadata and facet values *)

Section StoreMore.
Context {C : Collaborators}.

Lemma retained_has_no_method (r : Results) : retained r !! "getFacetByName" = None.
Proof.
  destruct r as [|c|o proto]; simpl; try apply lookup_empty.
  destruct (o !! "getFacetByName") eqn:E, proto; try apply lookup_empty. exact E.
Qed.

Lemma retained_after_write (r : Results) k c :
  k <> "getFacetByName" ->
  retained (RMulti (<[k := c]> (retained r)) None) = <[k := c]> (retained r).
Proof.
  intros Hk. simpl.
  now rewrite lookup_insert_ne, retained_has_no_method by exact Hk.
Qed.

(** X11.  Under derived helpers, two responses for different result keys
    may arrive in either order: [results] ends up the same and holds both.
    The keys must be neither [getFacetByName], the name by which the
    handler recognises a single response, nor [__proto__], under which a
    response becomes the prototype of [results]. *)
Theorem responses_commute (c1 c2 : Content) (m : Manager) :
  isEmpty (derivedHelpers m) = false ->
  mappedKey (indexMapping m) (content_index c1)
  <> mappedKey (indexMapping m) (content_index c2) ->
  mappedKey (indexMapping m) (content_index c1) <> "getFacetByName" ->
  mappedKey (indexMapping m) (content_index c2) <> "getFacetByName" ->
  mappedKey (indexMapping m) (content_index c1) <> "__proto__" ->
  mappedKey (indexMapping m) (content_index c2) <> "__proto__" ->
  results (store (handleSearchSuccess c2 (handleSearchSuccess c1 m)))
  = results (store (handleSearchSuccess c1 (handleSearchSuccess c2 m)))
  /\ exists o,
       results (store (handleSearchSuccess c2 (handleSearchSuccess c1 m)))
       = RMulti o None
       /\ o !! mappedKey (indexMapping m) (content_index c1) = Some c1
       /\ o !! mappedKey (indexMapping m) (content_index c2) = Some c2
       /\ forall k, k <> mappedKey (indexMapping m) (content_index c1) ->
                    k <> mappedKey (indexMapping m) (content_index c2) ->
                    o !! k = retained (results (store m)) !! k.
Proof.
  intros Hmulti Hne H1 H2 P1 P2.
  set (k1 := mappedKey (indexMapping m) (content_index c1)) in *.
  set (k2 := mappedKey (indexMapping m) (content_index c2)) in *.
  assert (forall a b ka kb, ka <> "getFacetByName" ->
            ka <> "__proto__" -> kb <> "__proto__" ->
            ka = mappedKey (indexMapping m) (content_index a) ->
            kb = mappedKey (indexMapping m) (content_index b) ->
            results (store (handleSearchSuccess b (handleSearchSuccess a m)))
            = RMulti (<[kb := b]> (<[ka := a]> (retained (results (store m))))) None)
    as Htwo.
  { intros a b ka kb Hka Pa Pb -> ->.
    rewrite (handleSearchSuccess_results b).
    change (derivedHelpers (handleSearchSuccess a m)) with (derivedHelpers m).
    change (indexMapping (handleSearchSuccess a m)) with (indexMapping m).
    rewrite Hmulti, (handleSearchSuccess_results a), Hmulti.
    rewrite (assign_ordinary _ a) by exact Pa.
    rewrite retained_after_write by exact Hka.
    now apply assign_ordinary. }
  rewrite (Htwo c1 c2 k1 k2 H1 P1 P2 eq_refl eq_refl).
  rewrite (Htwo c2 c1 k2 k1 H2 P2 P1 eq_refl eq_refl).
  split.
  - f_equal. now apply insert_insert_ne.
  - eexists. split; [reflexivity|]. split; [|split].
    + rewrite lookup_insert_ne by congruence. apply lookup_insert_eq.
    + apply lookup_insert_eq.
    + intros k Hk1 Hk2. now rewrite !lookup_insert_ne by congruence.
Qed.

(** X12.  Reconciling the same response twice is the same as reconciling
    it once, provided it is written neither under the key [getFacetByName]
    nor under [__proto__]. *)
Theorem response_is_idempotent (c : Content) (m : Manager) :
  isEmpty (derivedHelpers m) = true
  \/ (mappedKey (indexMapping m) (content_index c) <> "getFacetByName"
      /\ mappedKey (indexMapping m) (content_index c) <> "__proto__") ->
  handleSearchSuccess c (handleSearchSuccess c m) = handleSearchSuccess c m.
Proof.
  intros H.
  assert (results (store (handleSearchSuccess c (handleSearchSuccess c m)))
          = results (store (handleSearchSuccess c m))) as E.
  { rewrite (handleSearchSuccess_results c (handleSearchSuccess c m)).
    change (derivedHelpers (handleSearchSuccess c m)) with (derivedHelpers m).
    change (indexMapping (handleSearchSuccess c m)) with (indexMapping m).
    rewrite (handleSearchSuccess_results c m).
    destruct (isEmpty (derivedHelpers m)); [reflexivity|].
    destruct H as [H|[Hg Hp]]; [discriminate H|].
    rewrite (assign_ordinary _ c (retained (results (store m)))) by exact Hp.
    rewrite retained_after_write by exact Hg.
    rewrite assign_ordinary by exact Hp. now rewrite insert_insert_eq. }
  transitivity
    (withStore {| widgetsState := widgetsState (store m); metadata := metadata (store m);
                  results := results (store (handleSearchSuccess c
                                               (handleSearchSuccess c m)));
                  error := None; searching := false;
                  searchingForFacetValues := searchingForFacetValues (store m);
                  resultsFacetValues := None |} m); [reflexivity|].
  rewrite E. reflexivity.
Qed.

(** X13.  A successful response wipes what an error left: reconciling it
    after an error gives the very state it gives without the error.  Of two
    errors in a row the second one stays. *)
Theorem success_overrides_error (c : Content) (e e' : Err) (m : Manager) :
  handleSearchSuccess c (handleSearchError e m) = handleSearchSuccess c m
  /\ error (store (handleSearchSuccess c (handleSearchError e m))) = None
  /\ handleSearchError e' (handleSearchError e m) = handleSearchError e' m.
Proof. repeat split. Qed.

Lemma collect_ids (l : list Meta) (acc : list string) :
  fold_left (fun res meta => match meta_id meta with
                             | Some i => res ++ [i]
                             | None => res
                             end) l acc
  = acc ++ omap meta_id l.
Proof.
  revert acc. induction l as [|x l IH]; intros acc; simpl.
  - now rewrite app_nil_r.
  - rewrite IH. destruct (meta_id x); [|reflexivity].
    now rewrite <- app_assoc.
Qed.

(** X1.  [getWidgetsIds] lists the ids of the stored metadata entries that
    have one, in the order of the entries; entries without id are skipped. *)
Theorem widget_ids_are_the_defined_ids (m : Manager) :
  getWidgetsIds m = omap meta_id (metadata (store m))
  /\ forall i, In i (getWidgetsIds m)
               <-> exists meta, In meta (metadata (store m)) /\ meta_id meta = Some i.
Proof.
  assert (getWidgetsIds m = omap meta_id (metadata (store m))) as E
    by (unfold getWidgetsIds; now rewrite collect_ids).
  split; [exact E|].
  intros i. rewrite E, <- list_elem_of_In, list_elem_of_omap.
  split; intros [meta [H1 H2]]; exists meta; split;
    try exact H2; now apply list_elem_of_In.
Qed.

Lemma getMetadata_members st m meta :
  In meta (getMetadata st m)
  <-> exists w f, In w (registry m) /\ getMetadataOf w = Some f /\ meta = f st.
Proof.
  unfold getMetadata. rewrite <- list_elem_of_In, list_elem_of_omap. split.
  - intros [w [Hw E]]. apply list_elem_of_In in Hw.
    destruct (getMetadataOf w) as [f|] eqn:F; [|discriminate E].
    injection E as <-. eauto.
  - intros (w & f & Hw & F & ->). exists w. rewrite F.
    split; [now apply list_elem_of_In | reflexivity].
Qed.

(** X2.  An external state update stores the given search state and the
    metadata that the registered widgets compute from it, and raises
    [searching]; a widget update recomputes the metadata from the stored
    search state.  Results, error and facet values are kept.  Both raise
    [searching] also while searches are skipped, when nothing is sent. *)
Theorem state_updates_refresh_metadata (next : SearchState) (m : Manager) :
  widgetsState (store (onExternalStateUpdate next m)) = next
  /\ (forall meta, In meta (metadata (store (onExternalStateUpdate next m)))
        <-> exists w f, In w (registry m) /\ getMetadataOf w = Some f
                        /\ meta = f next)
  /\ searching (store (onExternalStateUpdate next m)) = true
  /\ results (store (onExternalStateUpdate next m)) = results (store m)
  /\ error (store (onExternalStateUpdate next m)) = error (store m)
  /\ resultsFacetValues (store (onExternalStateUpdate next m))
     = resultsFacetValues (store m)
  /\ widgetsState (store (onWidgetsUpdate m)) = widgetsState (store m)
  /\ (forall meta, In meta (metadata (store (onWidgetsUpdate m)))
        <-> exists w f, In w (registry m) /\ getMetadataOf w = Some f
                        /\ meta = f (widgetsState (store m)))
  /\ searching (store (onWidgetsUpdate m)) = true
  /\ results (store (onWidgetsUpdate m)) = results (store m)
  /\ (skip m = true ->
      sent (onExternalStateUpdate next m) = sent m
      /\ sent (onWidgetsUpdate m) = sent m).
Proof.
  unfold onExternalStateUpdate, onWidgetsUpdate.
  set (m1 := withStore _ m). set (m2 := withStore _ m).
  destruct (search_frame m1) as (_ & _ & _ & S1 & _).
  destruct (search_frame m2) as (_ & _ & _ & S2 & _).
  rewrite S1, S2. unfold m1, m2. simpl.
  repeat split; try (now apply getMetadata_members);
    try (intros H; now apply getMetadata_members in H).
  - rewrite search_skipped; [reflexivity | assumption].
  - rewrite search_skipped; [reflexivity | assumption].
Qed.

(** X3.  [transitionState] lets the widgets that have a transition rewrite
    the proposed state in registration order, each one seeing the stored
    search state and the outcome of the widgets before it; without such a
    widget the proposed state comes back unchanged. *)
Theorem transitions_apply_in_order (next : SearchState) (m : Manager) :
  ((forall w, In w (registry m) -> transitionStateOf w = None) ->
   transitionState next m = next)
  /\ (forall ws w f, registry m = ws ++ [w] -> transitionStateOf w = Some f ->
        transitionState next m
        = f (widgetsState (store m)) (transitionState next (withRegistry ws m)))
  /\ (forall ws w, registry m = ws ++ [w] -> transitionStateOf w = None ->
        transitionState next m = transitionState next (withRegistry ws m)).
Proof.
  unfold transitionState. split; [|split].
  - intros Hnone.
    assert (omap transitionStateOf (registry m) = []) as ->; [|reflexivity].
    induction (registry m) as [|w ws IH]; simpl; [reflexivity|].
    rewrite (Hnone w (or_introl eq_refl)). apply IH.
    intros w' Hw'. apply Hnone. now right.
  - intros ws w f -> Hf. simpl.
    rewrite omap_app, fold_left_app. simpl. now rewrite Hf.
  - intros ws w -> Hf. simpl.
    rewrite omap_app, fold_left_app. simpl. now rewrite Hf.
Qed.

(** X4.  A fulfilled facet-value search stores the query under [query] and
    the hits under the facet name, next to the hits stored for other facets
    before; a facet called [query] loses its hits to the query string.  It
    lowers [searchingForFacetValues] and keeps results, error and the main
    flag. *)
Theorem facet_hits_are_kept_per_facet
    (facetName query : string) (hits : FacetHits) (m : Manager) :
  exists o,
    resultsFacetValues (store (facetValuesSuccess facetName query hits m)) = Some o
    /\ o !! "query" = Some (FacetQuery query)
    /\ (facetName <> "query" -> o !! facetName = Some (FacetHitsOf hits))
    /\ (forall k, k <> facetName -> k <> "query" ->
          o !! k = default ∅ (resultsFacetValues (store m)) !! k)
    /\ searchingForFacetValues (store (facetValuesSuccess facetName query hits m))
       = false
    /\ results (store (facetValuesSuccess facetName query hits m)) = results (store m)
    /\ error (store (facetValuesSuccess facetName query hits m)) = error (store m)
    /\ searching (store (facetValuesSuccess facetName query hits m))
       = searching (store m).
Proof.
  eexists. split; [reflexivity|]. split; [apply lookup_insert_eq|]. split; [|split].
  - intros Hne. rewrite lookup_insert_ne by congruence. apply lookup_insert_eq.
  - intros k Hk Hq. now rewrite !lookup_insert_ne by congruence.
  - repeat split.
Qed.

End StoreMore.

(** ** Instances of the further properties *)

Lemma withArticles_is_reachable : reachable Demo.withArticles.
Proof.
  exists "products", [], 0, Demo.base, RNull,
    [RegistryChange [Demo.brand; Demo.otherIndexWidget]].
  reflexivity.
Qed.

Lemma fresh_is_held : attachedAreHeld Demo.fresh.
Proof. intros x []. Qed.

Lemma withArticles_is_held : attachedAreHeld Demo.withArticles.
Proof. intros x []. Qed.

Lemma mapping_is_rebuilt_each_cycle_witness :
  is_Some (indexMapping (search Demo.withArticles) !! "articles")
  /\ is_Some (indexMapping (updateIndex "archive" Demo.withArticles) !! "archive").
Proof.
  split.
  - apply (mapping_is_rebuilt_each_cycle Demo.withArticles "articles"
             withArticles_is_held eq_refl).
    split; [discriminate|]. right. left. reflexivity.
  - apply (mapping_is_rebuilt_each_cycle
             (withInitialSearchParameters
                (sp_setIndex "archive" (initialSearchParameters Demo.withArticles))
                Demo.withArticles)
             "archive" ltac:(intros x []) eq_refl).
    split; [discriminate|]. left. reflexivity.
Defined.

Lemma derived_helpers_are_renewed_witness :
  length (attached (helper (search Demo.withArticles))) = 1
  /\ attachedAreHeld (search Demo.withArticles).
Proof.
  destruct (derived_helpers_are_renewed Demo.withArticles
              withArticles_is_held eq_refl) as (_ & H & _ & _ & Hheld).
  split; [exact H|]. apply Hheld.
  intros g [<-|[]]. discriminate.
Defined.

Lemma cycle_without_contributions_witness :
  sent (search Demo.fresh)
  = sent Demo.fresh ++ [SearchRequest (initialSearchParameters Demo.fresh) []]
  /\ indexMapping (search Demo.fresh) = {[ "products" := "products" ]}
  /\ indexMapping (updateIndex "archive" Demo.fresh) = {[ "archive" := "products" ]}.
Proof.
  destruct (cycle_without_contributions Demo.fresh fresh_is_held eq_refl)
    as (H & _ & Hm & _); [intros w []|].
  destruct (cycle_without_contributions
              (withInitialSearchParameters
                 (sp_setIndex "archive" (initialSearchParameters Demo.fresh))
                 Demo.fresh)
              ltac:(intros x []) eq_refl) as (_ & _ & Hm' & _); [intros w []|].
  split; [exact H|]. split.
  - apply Hm. discriminate.
  - apply Hm'. discriminate.
Defined.

Lemma updateIndex_rebases_composition_witness :
  exists derived,
    sent (updateIndex "archive" Demo.withArticles)
    = sent Demo.withArticles
      ++ [SearchRequest
            (mainIndexParameters
               (compose (indexName Demo.withArticles)
                  (sp_setIndex "archive" (initialSearchParameters Demo.withArticles))
                  (registry Demo.withArticles)))
            derived].
Proof.
  destruct (updateIndex_rebases_composition "archive" Demo.withArticles)
    as (_ & _ & _ & _ & _ & H).
  exact (H withArticles_is_reachable eq_refl).
Defined.

Lemma facet_search_uses_main_parameters_witness :
  exists batch,
    sent (onSearchForFacetValues "brand" "ac" (search Demo.withArticles))
    = sent Demo.withArticles
      ++ [batch;
          FacetRequest (mainIndexParameters (getSearchParameters Demo.withArticles).1)
                       "brand" "ac"].
Proof.
  destruct (facet_search_uses_main_parameters "brand" "ac" Demo.withArticles)
    as (H & _).
  exact (H eq_refl).
Defined.

Lemma responses_commute_witness :
  results (store (handleSearchSuccess (Demo.response "articles" 3)
                    (handleSearchSuccess (Demo.response "products" 5)
                       (search Demo.withArticles))))
  = results (store (handleSearchSuccess (Demo.response "products" 5)
                      (handleSearchSuccess (Demo.response "articles" 3)
                         (search Demo.withArticles)))).
Proof.
  apply (responses_commute (Demo.response "products" 5) (Demo.response "articles" 3)
           (search Demo.withArticles)).
  - vm_compute. reflexivity.
  - vm_compute. intros E. discriminate E.
  - vm_compute. intros E. discriminate E.
  - vm_compute. intros E. discriminate E.
  - vm_compute. intros E. discriminate E.
  - vm_compute. intros E. discriminate E.
Defined.

Lemma response_is_idempotent_witness :
  handleSearchSuccess (Demo.response "products" 5)
    (handleSearchSuccess (Demo.response "products" 5) Demo.fresh)
  = handleSearchSuccess (Demo.response "products" 5) Demo.fresh.
Proof.
  apply (response_is_idempotent (Demo.response "products" 5) Demo.fresh).
  left. reflexivity.
Defined.

Lemma widget_ids_are_the_defined_ids_witness :
  In "a,b" (getWidgetsIds Demo.described).
Proof.
  apply (widget_ids_are_the_defined_ids Demo.described).
  exists "a,b". split; [left; reflexivity | reflexivity].
Defined.

Lemma state_updates_refresh_metadata_witness :
  sent (onWidgetsUpdate (skipSearch Demo.withArticles))
  = sent (skipSearch Demo.withArticles).
Proof.
  destruct (state_updates_refresh_metadata (C := Demo.collaborators) []
              (skipSearch Demo.withArticles))
    as (_ & _ & _ & _ & _ & _ & _ & _ & _ & _ & H).
  apply H. reflexivity.
Defined.

Lemma transitions_apply_in_order_witness :
  transitionState (C := Demo.collaborators) ["x"] Demo.described = ["a"; "b"; "x"].
Proof.
  destruct (transitions_apply_in_order (C := Demo.collaborators) ["x"] Demo.described)
    as (_ & H & _).
  rewrite (H [Demo.describer] Demo.keeper (fun current next => current ++ next)
             eq_refl eq_refl).
  reflexivity.
Defined.

Lemma facet_hits_are_kept_per_facet_witness :
  exists o,
    resultsFacetValues
      (store (facetValuesSuccess (C := Demo.collaborators) "brand" "ac" ["acme"]
                Demo.fresh)) = Some o
    /\ o !! "brand" = Some (FacetHitsOf (C := Demo.collaborators) ["acme"]).
Proof.
  destruct (facet_hits_are_kept_per_facet (C := Demo.collaborators)
              "brand" "ac" ["acme"] Demo.fresh) as (o & E & _ & H & _).
  exists o. split; [exact E|]. apply H. discriminate.
Defined.
